(** * Gutter API: the result-to-estimate core of [get_results]

    A shallow embedding of the pure tail of [get_results] in
    [app/main.py] (lines 105-158): the extraction of the measurement
    record from the provider's JSON payload and the pricing pipeline that
    turns it into an itemised estimate; and, around it, of [get_token]
    and the three handlers that call the provider (lines 29-103), as
    state-passing runs over the token cache and the provider's answers.

    Python numbers are modelled as they are at run time: [int] is an
    unbounded integer ([Z]) and [float] is an IEEE 754 binary64 value,
    given by the Standard Library's executable specification
    ([SpecFloat], precision 53, maximal exponent 1024).  Exceptions are
    explicit: every operation that can raise returns a [result], and the
    order of evaluation of the source is kept.  The payload is a JSON
    value as [r.json()] builds it, so the dynamic typing of the source
    shows: a field of the wrong type raises where Python raises.

    The file has two parts: the definitions (the float and Python
    built-ins, the estimator, the vocabulary of the properties), then the
    lemmas and the properties proved of the estimator and of the
    handlers. *)

From Stdlib Require Import ZArith List String Bool Lia.
From Stdlib Require Import Floats.SpecFloat DecimalString.
Import ListNotations.

Local Open Scope string_scope.
Local Open Scope Z_scope.

Set Warnings "-register-all".

(** ** Binary64 floating point *)

Module Float64.

Definition prec : Z := 53.
Definition emax : Z := 1024.

Definition float : Type := spec_float.

Definition mul : float -> float -> float := SFmul prec emax.
Definition add : float -> float -> float := SFadd prec emax.
Definition div : float -> float -> float := SFdiv prec emax.

(** Python's [a <= b] on floats: false as soon as one side is NaN. *)
Definition leb : float -> float -> bool := SFleb.

(** The double nearest to an integer (ties to even); an integer beyond
    the range of a double gives an infinity. *)
Definition of_Z (n : Z) : float := binary_normalize prec emax n 0 false.

(** The double nearest to [+-n / d] (ties to even), for integers [n] and
    [d] of any size: the correctly rounded quotient. *)
Definition nearest_ratio (s : bool) (n d : positive) : float :=
  div (S754_finite s n 0) (S754_finite false d 0).

(** The double a decimal literal [m / 10^k] denotes, e.g. [8.50] is
    [literal 850 2]. *)
Definition literal (m : Z) (k : Z) : float :=
  match m with
  | Z0 => S754_zero false
  | Zpos n => nearest_ratio false n (Z.to_pos (10 ^ k))
  | Zneg n => nearest_ratio true n (Z.to_pos (10 ^ k))
  end.

Definition zero : float := S754_zero false.

Definition is_nan (x : float) : bool :=
  match x with S754_nan => true | _ => false end.

(** [a / b] rounded to the nearest integer, ties to the even one
    ([0 < b]). *)
Definition half_even (a b : Z) : Z :=
  let q := a / b in
  match 2 * (a mod b) ?= b with
  | Lt => q
  | Gt => q + 1
  | Eq => if Z.even q then q else q + 1
  end.

(** [|x| * 10^k] for [x = m * 2^e], rounded to an integer, ties to
    even, on the exact value. *)
Definition scaled (m : positive) (e : Z) (k : Z) : Z :=
  if 0 <=? e then Zpos m * 2 ^ e * 10 ^ k
  else half_even (Zpos m * 10 ^ k) (2 ^ (- e)).

(** [round(x, k)] for [0 <= k]: the exact value of [x] is rounded to [k]
    decimals, half to even, and the decimal obtained is read back as the
    nearest double; the sign is kept, and NaN and the infinities are
    returned unchanged. *)
Definition round (x : float) (k : Z) : float :=
  match x with
  | S754_finite s m e =>
      match scaled m e k with
      | Zpos n => nearest_ratio s n (Z.to_pos (10 ^ k))
      | _ => S754_zero s
      end
  | _ => x
  end.

(** The integer part of a finite double, towards zero. *)
Definition trunc (s : bool) (m : positive) (e : Z) : Z :=
  cond_Zopp s (if 0 <=? e then Zpos m * 2 ^ e else Zpos m / 2 ^ (- e)).

(** [x >= n] for a float [x] and an integer [n], compared exactly as
    Python does. *)
Definition ge_Z (x : float) (n : Z) : bool :=
  match x with
  | S754_nan => false
  | S754_infinity s => negb s
  | S754_zero _ => n <=? 0
  | S754_finite s m e =>
      n * 2 ^ Z.max (- e) 0 <=? cond_Zopp s (Zpos m) * 2 ^ Z.max e 0
  end.

(** *** Vocabulary of the rounding facts *)

(** The exponent of the last binary digit binary64 keeps of a value in
    [[2^(e-1), 2^e)]. *)
Definition fexp64 (e : Z) : Z := fexp prec emax e.

(** The number of binary digits of a positive integer. *)
Definition digits (m : positive) : Z := Zpos (digits2_pos m).

(** What rounding an exact positive value [mx * 2^ex] gives, when the
    exponent is not above the one the format asks for: the sign is kept;
    a finite result is a valid double whose exponent is at least the
    target exponent, with a mantissa at least the truncated one when it
    is the target exponent; an infinity comes only from a target
    exponent at the top of the range. *)
Definition rounded (sx : bool) (mx : positive) (ex : Z) (r : float) : Prop :=
  let e1 := fexp64 (digits mx + ex) in
  match r with
  | S754_zero s => s = sx /\ Zpos mx / 2 ^ (e1 - ex) = 0
  | S754_infinity s => s = sx /\ emax - prec <= e1
  | S754_nan => False
  | S754_finite s m e =>
      s = sx /\ bounded prec emax m e = true /\ e1 <= e /\
      (e = e1 -> Zpos mx / 2 ^ (e1 - ex) <= Zpos m)
  end.

(** A double that is valid and not negative, or NaN. *)
Definition nonneg_or_nan (x : float) : Prop :=
  match x with
  | S754_zero _ | S754_nan => True
  | S754_infinity s => s = false
  | S754_finite s m e => s = false /\ bounded prec emax m e = true
  end.

End Float64.

Definition float : Type := Float64.float.

(** ** Python values, exceptions and built-ins *)

(** The values [r.json()] can produce; a [dict] is the list of its
    items in insertion order, their keys distinct. *)
Inductive value : Type :=
| VNone
| VBool (b : bool)
| VInt (n : Z)
| VFloat (f : float)
| VStr (s : string)
| VList (l : list value)
| VDict (d : list (string * value)).

Inductive exn : Type :=
| AttributeError
| TypeError
| ValueError
| OverflowError.

Inductive result (A : Type) : Type :=
| Ok (a : A)
| Raise (e : exn).

Arguments Ok {A} a.
Arguments Raise {A} e.

Definition bind {A B : Type} (c : result A) (k : A -> result B) : result B :=
  match c with
  | Ok a => k a
  | Raise e => Raise e
  end.

Notation "x <- c ;; k" := (bind c (fun x => k))
  (at level 61, c at next level, right associativity).

Module Py.

(** Truth value testing. *)
Definition truthy (v : value) : bool :=
  match v with
  | VNone => false
  | VBool b => b
  | VInt n => negb (n =? 0)
  | VFloat (S754_zero _) => false
  | VFloat _ => true
  | VStr s => negb (String.eqb s "")
  | VList l => match l with [] => false | _ => true end
  | VDict d => match d with [] => false | _ => true end
  end.

(** [a or b] *)
Definition or_ (a b : value) : value := if truthy a then a else b.

Fixpoint lookup (d : list (string * value)) (k : string) : option value :=
  match d with
  | [] => None
  | (k', v) :: d' => if String.eqb k' k then Some v else lookup d' k
  end.

(** [o.get(k, dflt)]: only a [dict] has the method. *)
Definition get_default (o : value) (k : string) (dflt : value) : result value :=
  match o with
  | VDict d => Ok (match lookup d k with Some v => v | None => dflt end)
  | _ => Raise AttributeError
  end.

(** [o.get(k)] *)
Definition get (o : value) (k : string) : result value := get_default o k VNone.

(** [o.values()] *)
Definition values (o : value) : result (list value) :=
  match o with
  | VDict d => Ok (map snd d)
  | _ => Raise AttributeError
  end.

(** [any(f(v) for v in vs)]: stops at the first true element, and at
    the first element whose test raises. *)
Fixpoint any (f : value -> result bool) (vs : list value) : result bool :=
  match vs with
  | [] => Ok false
  | v :: vs' => b <- f v ;; if b then Ok true else any f vs'
  end.

(** [v >= n] for an integer literal [n]. *)
Definition ge_int (v : value) (n : Z) : result bool :=
  match v with
  | VBool b => Ok (n <=? (if b then 1 else 0))
  | VInt m => Ok (n <=? m)
  | VFloat x => Ok (Float64.ge_Z x n)
  | _ => Raise TypeError
  end.

(** The conversion of an [int] operand to [float], as in [float(n)] and
    in [n * x] for a float [x]. *)
Definition float_of_int (n : Z) : result float :=
  match Float64.of_Z n with
  | S754_infinity _ => Raise OverflowError
  | x => Ok x
  end.

(** [n * x] for an int [n] and a float [x]. *)
Definition int_mul_float (n : Z) (x : float) : result float :=
  y <- float_of_int n ;; Ok (Float64.mul y x).

(** [str(n)], as an f-string renders an int. *)
Definition str_of_int (n : Z) : string := NilZero.string_of_int (Z.to_int n).

(** What [float(s)] and [int(s)] make of a text [s] ([None] where they
    raise [ValueError]).  The estimator does not depend on how Python
    reads numbers out of text, so the two readings are a parameter. *)
Record reader : Type := {
  read_float : string -> option float;
  read_int : string -> option Z
}.

(** The reading that refuses every text, for runs on payloads whose
    numbers are JSON numbers. *)
Definition no_text : reader :=
  {| read_float := fun _ => None; read_int := fun _ => None |}.

(** [float(v)] *)
Definition float_ (rd : reader) (v : value) : result float :=
  match v with
  | VBool b => Ok (Float64.of_Z (if b then 1 else 0))
  | VInt n => float_of_int n
  | VFloat x => Ok x
  | VStr s =>
      match read_float rd s with Some x => Ok x | None => Raise ValueError end
  | _ => Raise TypeError
  end.

(** [int(v)] *)
Definition int_ (rd : reader) (v : value) : result Z :=
  match v with
  | VBool b => Ok (if b then 1 else 0)
  | VInt n => Ok n
  | VFloat S754_nan => Raise ValueError
  | VFloat (S754_infinity _) => Raise OverflowError
  | VFloat (S754_zero _) => Ok 0
  | VFloat (S754_finite s m e) => Ok (Float64.trunc s m e)
  | VStr s =>
      match read_int rd s with Some n => Ok n | None => Raise ValueError end
  | _ => Raise TypeError
  end.

End Py.

(** ** The data of an estimate *)

(** The [totals] dict of the source (lines 106-113), echoed as [inputs]:
    each entry holds the payload's value as found, or the default. *)
Record MeasurementRecord : Type := {
  eave_linear_ft : value;
  downspouts : value;
  miters_inside : value;
  miters_outside : value;
  stories_by_direction : value;
  pdf_url : value
}.

(** The [pricing] dict (lines 116-126). *)
Record PricingConfig : Type := {
  price_per_ft : float;
  labor_per_ft : float;
  downspout_each : float;
  miter_each : float;
  pitch_multiplier : float;
  story_multiplier : float;
  overhead_pct : float;
  profit_pct : float;
  sales_tax_pct : float
}.

Record LineItem : Type := {
  label : string;
  qty : option value;
  uom : option string;
  unit_price : option float;
  amount : float
}.

Record Totals : Type := {
  subtotal : float;
  total : float
}.

Record EstimateResult : Type := {
  inputs : MeasurementRecord;
  line_items : list LineItem;
  totals : Totals
}.

(** The unrounded values of lines 136-144. *)
Record Amounts : Type := {
  base_mat : float;
  base_lab : float;
  accessories : float;
  a_subtotal : float;
  overhead : float;
  pre_profit : float;
  profit : float;
  sales_tax : float;
  a_total : float
}.

(** ** Extraction (lines 105-113) *)

Definition empty_dict : value := VDict [].

(** [gutter = data.get("gutterReport", {}) or {}] *)
Definition gutter (data : value) : result value :=
  g <- Py.get_default data "gutterReport" empty_dict ;;
  Ok (Py.or_ g empty_dict).

(** The [totals] dict literal, its entries evaluated in order. *)
Definition extract (data : value) : result MeasurementRecord :=
  g <- gutter data ;;
  eave <- Py.get g "totalEaveLengthFt" ;;
  ds <- Py.get g "estimatedDownspouts" ;;
  mc_in <- Py.get g "miterCount" ;;
  m_in <- Py.get (Py.or_ mc_in empty_dict) "inside90" ;;
  mc_out <- Py.get g "miterCount" ;;
  m_out <- Py.get (Py.or_ mc_out empty_dict) "outside90" ;;
  stories <- Py.get g "storiesByDirection" ;;
  assets <- Py.get g "assets" ;;
  url <- Py.get (Py.or_ assets empty_dict) "pdfUrl" ;;
  Ok {| eave_linear_ft := Py.or_ eave (VFloat Float64.zero);
        downspouts := Py.or_ ds (VInt 0);
        miters_inside := Py.or_ m_in (VInt 0);
        miters_outside := Py.or_ m_out (VInt 0);
        stories_by_direction := Py.or_ stories empty_dict;
        pdf_url := url |}.

(** ** Pricing (lines 116-158) *)

Definition pricing : PricingConfig :=
  {| price_per_ft := Float64.literal 850 2;
     labor_per_ft := Float64.literal 500 2;
     downspout_each := Float64.literal 8500 2;
     miter_each := Float64.literal 1200 2;
     pitch_multiplier := Float64.literal 110 2;
     story_multiplier := Float64.literal 100 2;
     overhead_pct := Float64.literal 12 2;
     profit_pct := Float64.literal 10 2;
     sales_tax_pct := Float64.literal 0 2 |}.

(** [pricing["story_multiplier"] = x] *)
Definition set_story_multiplier (p : PricingConfig) (x : float)
  : PricingConfig :=
  {| price_per_ft := price_per_ft p;
     labor_per_ft := labor_per_ft p;
     downspout_each := downspout_each p;
     miter_each := miter_each p;
     pitch_multiplier := pitch_multiplier p;
     story_multiplier := x;
     overhead_pct := overhead_pct p;
     profit_pct := profit_pct p;
     sales_tax_pct := sales_tax_pct p |}.

(** [(v or 1) >= 2] *)
Definition two_stories (v : value) : result bool :=
  Py.ge_int (Py.or_ v (VInt 1)) 2.

(** [any(((v or 1) >= 2) for v in totals["stories_by_direction"].values())] *)
Definition any_two_stories (t : MeasurementRecord) : result bool :=
  vs <- Py.values (stories_by_direction t) ;;
  Py.any two_stories vs.

(** Lines 129-130: the labor bump. *)
Definition bump_story (p : PricingConfig) (t : MeasurementRecord)
  : result PricingConfig :=
  b <- any_two_stories t ;;
  Ok (if b then set_story_multiplier p (Float64.literal 110 2) else p).

(** Lines 136-144, on the converted quantities. *)
Definition amounts (p : PricingConfig) (eave : float) (n_ds n_miters : Z)
  : result Amounts :=
  let base_mat := Float64.mul eave (price_per_ft p) in
  let base_lab :=
    Float64.mul
      (Float64.mul (Float64.mul eave (labor_per_ft p)) (pitch_multiplier p))
      (story_multiplier p) in
  ds_amt <- Py.int_mul_float n_ds (downspout_each p) ;;
  miters_amt <- Py.int_mul_float n_miters (miter_each p) ;;
  let accessories := Float64.add ds_amt miters_amt in
  let subtotal := Float64.add (Float64.add base_mat base_lab) accessories in
  let overhead := Float64.mul subtotal (overhead_pct p) in
  let pre_profit := Float64.add subtotal overhead in
  let profit := Float64.mul pre_profit (profit_pct p) in
  let sales_tax :=
    Float64.mul (Float64.add base_mat accessories) (sales_tax_pct p) in
  let total := Float64.add (Float64.add pre_profit profit) sales_tax in
  Ok {| base_mat := base_mat;
        base_lab := base_lab;
        accessories := accessories;
        a_subtotal := subtotal;
        overhead := overhead;
        pre_profit := pre_profit;
        profit := profit;
        sales_tax := sales_tax;
        a_total := total |}.

Definition priced_line (l : string) (q : value) (u : string) (price x : float)
  : LineItem :=
  {| label := l; qty := Some q; uom := Some u; unit_price := Some price;
     amount := Float64.round x 2 |}.

Definition plain_line (l : string) (x : float) : LineItem :=
  {| label := l; qty := None; uom := None; unit_price := None;
     amount := Float64.round x 2 |}.

(** The [line_items] list (lines 148-156); the downspout and miter
    amounts are multiplied again there. *)
Definition lines (p : PricingConfig) (eave : float) (n_ds n_miters : Z)
    (a : Amounts) : result (list LineItem) :=
  ds_amt <- Py.int_mul_float n_ds (downspout_each p) ;;
  miters_amt <- Py.int_mul_float n_miters (miter_each p) ;;
  Ok [ priced_line "Gutter materials" (VFloat (Float64.round eave 1)) "ft"
         (price_per_ft p) (base_mat a);
       priced_line "Labor" (VFloat (Float64.round eave 1)) "ft"
         (labor_per_ft p) (base_lab a);
       priced_line ("Downspouts (" ++ Py.str_of_int n_ds ++ ")") (VInt n_ds)
         "ea" (downspout_each p) ds_amt;
       priced_line ("Miters (" ++ Py.str_of_int n_miters ++ ")")
         (VInt n_miters) "ea" (miter_each p) miters_amt;
       plain_line "Overhead" (overhead a);
       plain_line "Profit" (profit a);
       plain_line "Sales tax" (sales_tax a) ].

(** Lines 132-134: the quantities the arithmetic runs on. *)
Record Quantities : Type := {
  eave_ft : float;
  ds : Z;
  miters : Z
}.

Definition quantities (rd : Py.reader) (t : MeasurementRecord)
  : result Quantities :=
  eave_ft <- Py.float_ rd (eave_linear_ft t) ;;
  ds <- Py.int_ rd (downspouts t) ;;
  m_in <- Py.int_ rd (miters_inside t) ;;
  m_out <- Py.int_ rd (miters_outside t) ;;
  Ok {| eave_ft := eave_ft; ds := ds; miters := m_in + m_out |}.

(** Lines 128-144: the unrounded amounts of a run, with the pricing in
    force after the labor bump. *)
Definition unrounded (rd : Py.reader) (p0 : PricingConfig)
    (t : MeasurementRecord) : result (PricingConfig * Quantities * Amounts) :=
  p <- bump_story p0 t ;;
  q <- quantities rd t ;;
  a <- amounts p (eave_ft q) (ds q) (miters q) ;;
  Ok (p, q, a).

(** Lines 128-158 for a given [pricing] dict. *)
Definition price (rd : Py.reader) (p0 : PricingConfig) (t : MeasurementRecord)
  : result EstimateResult :=
  pqa <- unrounded rd p0 t ;;
  let '(p, q, a) := pqa in
  ls <- lines p (eave_ft q) (ds q) (miters q) a ;;
  Ok {| inputs := t;
        line_items := ls;
        totals := {| subtotal := Float64.round (a_subtotal a) 2;
                     total := Float64.round (a_total a) 2 |} |}.

(** Lines 105-158 with the [pricing] dict as a parameter. *)
Definition estimate (rd : Py.reader) (p0 : PricingConfig) (data : value)
  : result EstimateResult :=
  t <- extract data ;;
  price rd p0 t.

(** The estimate [get_results] returns for the provider's answer [data]
    (the spec's [computeEstimate]). *)
Definition get_results (rd : Py.reader) (data : value)
  : result EstimateResult :=
  estimate rd pricing data.

(** ** Vocabulary of the claims: payloads, records and predicates *)

(** Amounts as written in the spec, in hundredths: [cents 21972] is the
    double [219.72]. *)
Definition cents (n : Z) : float := Float64.literal n 2.

Definition report (fields : list (string * value)) : value :=
  VDict [("gutterReport", VDict fields)].

(** [{"gutterReport": {"totalEaveLengthFt": 100, "estimatedDownspouts": 4,
      "miterCount": {"inside90": 2, "outside90": 1},
      "storiesByDirection": {"N": 1, "S": 2}}}] *)
Definition scenario : value :=
  report [("totalEaveLengthFt", VInt 100);
          ("estimatedDownspouts", VInt 4);
          ("miterCount", VDict [("inside90", VInt 2); ("outside90", VInt 1)]);
          ("storiesByDirection", VDict [("N", VInt 1); ("S", VInt 2)])].

(** The record extraction yields when nothing is there to extract. *)
Definition default_record : MeasurementRecord :=
  {| eave_linear_ft := VFloat Float64.zero;
     downspouts := VInt 0;
     miters_inside := VInt 0;
     miters_outside := VInt 0;
     stories_by_direction := empty_dict;
     pdf_url := VNone |}.

(** An all-zero record: the eave length as the int [0] or the float
    [0.0], any asset URL. *)
Definition zero_record (int_eave : bool) (url : value) : MeasurementRecord :=
  {| eave_linear_ft := if int_eave then VInt 0 else VFloat Float64.zero;
     downspouts := VInt 0;
     miters_inside := VInt 0;
     miters_outside := VInt 0;
     stories_by_direction := empty_dict;
     pdf_url := url |}.

(** The scenario's quantities on a single-story house. *)
Definition single_story : value :=
  report [("totalEaveLengthFt", VInt 100);
          ("estimatedDownspouts", VInt 4);
          ("miterCount", VDict [("inside90", VInt 2); ("outside90", VInt 1)]);
          ("storiesByDirection", VDict [("N", VInt 1)])].

(** [{"gutterReport": {"storiesByDirection": {"N": 0}}}] *)
Definition zero_story : value :=
  report [("storiesByDirection", VDict [("N", VInt 0)])].

(** [{"gutterReport": {"estimatedDownspouts": 10^400}}] *)
Definition huge_count : value :=
  report [("estimatedDownspouts", VInt (10 ^ 400))].

Definition with_url (u : value) : value :=
  report [("totalEaveLengthFt", VInt 100);
          ("assets", VDict [("pdfUrl", u)])].

(** An eave length of [1e308] feet. *)
Definition huge_eave : float := Float64.literal (10 ^ 308) 0.

(** The pricing of the source with a sales tax of 7% and the labor rate
    [labor]. *)
Definition taxed_pricing (labor : float) : PricingConfig :=
  {| price_per_ft := price_per_ft pricing;
     labor_per_ft := labor;
     downspout_each := downspout_each pricing;
     miter_each := miter_each pricing;
     pitch_multiplier := pitch_multiplier pricing;
     story_multiplier := story_multiplier pricing;
     overhead_pct := overhead_pct pricing;
     profit_pct := profit_pct pricing;
     sales_tax_pct := Float64.literal 7 2 |}.

(** Some side has two stories or more. *)
Definition some_two_stories (d : list (string * value)) : Prop :=
  exists k n, In (k, VInt n) d /\ 2 <= n.





(** The amounts of the line items after the first six: the sales tax
    line alone. *)
Definition sales_tax_line (r : EstimateResult) : list float :=
  map amount (skipn 6 (line_items r)).

(** Every value of the mapping [v] is an integer at least 1. *)
Definition stories_at_least_one (v : value) : Prop :=
  exists d, v = VDict d /\
    Forall (fun kv => exists n, snd kv = VInt n /\ 1 <= n) d.

(** [gutter.get("storiesByDirection")], as the payload has it. *)
Definition payload_stories (data : value) : result value :=
  g <- gutter data ;; Py.get g "storiesByDirection".

(** The entry [k] of an object is absent, null, or satisfies [P]. *)
Definition optional (P : value -> Prop) (d : list (string * value))
    (k : string) : Prop :=
  match Py.lookup d k with
  | None | Some VNone => True
  | Some v => P v
  end.

Definition object_of (P : list (string * value) -> Prop) (v : value) : Prop :=
  match v with
  | VDict d => P d
  | _ => False
  end.

Definition is_number (v : value) : Prop :=
  match v with
  | VInt _ | VFloat _ => True
  | _ => False
  end.

Definition is_integer (v : value) : Prop :=
  match v with
  | VInt _ => True
  | _ => False
  end.

Definition is_string (v : value) : Prop :=
  match v with
  | VStr _ => True
  | _ => False
  end.

Definition integer_or_null (v : value) : Prop :=
  match v with
  | VInt _ | VNone => True
  | _ => False
  end.

(** The [gutterReport] object of section 4.1 of the spec. *)
Definition report_shape (g : list (string * value)) : Prop :=
  optional is_number g "totalEaveLengthFt" /\
  optional is_integer g "estimatedDownspouts" /\
  optional
    (object_of (fun mc => optional is_integer mc "inside90" /\
                          optional is_integer mc "outside90"))
    g "miterCount" /\
  optional (object_of (Forall (fun kv => integer_or_null (snd kv))))
    g "storiesByDirection" /\
  optional (object_of (fun a => optional is_string a "pdfUrl")) g "assets".

(** A payload of the documented shape: an object whose [gutterReport],
    if there and not null, is an object of the shape above; every field
    may be missing or null. *)
Definition documented_shape (data : value) : Prop :=
  object_of (fun d => optional (object_of report_shape) d "gutterReport") data.

(** Two lookups of one key that differ at most in that one finds null
    where the other finds no key; when both find a value, the values are
    related by [same]. *)
Definition null_or_absent (same : value -> value -> Prop)
    (o o' : option value) : Prop :=
  match o, o' with
  | None, None => True
  | None, Some v | Some v, None => v = VNone
  | Some v, Some v' => same v v'
  end.

(** The values [v] and [v'] are equal, or they are objects that, under
    each key of [steps], differ at most by a null for an absent key, the
    values found under the key being related as [steps] says. *)
Definition alike_at (steps : list (string * (value -> value -> Prop)))
    (v v' : value) : Prop :=
  v = v' \/
  exists d d',
    v = VDict d /\ v' = VDict d' /\
    Forall
      (fun s => null_or_absent (snd s) (Py.lookup d (fst s))
                  (Py.lookup d' (fst s)))
      steps.

(** The steps of the traversal of lines 105-112: the payload is read at
    [gutterReport], the report at its five keys, [miterCount] at
    [inside90] and [outside90], [assets] at [pdfUrl]. *)
Definition miter_steps : list (string * (value -> value -> Prop)) :=
  [("inside90", eq); ("outside90", eq)].

Definition asset_steps : list (string * (value -> value -> Prop)) :=
  [("pdfUrl", eq)].

Definition report_steps : list (string * (value -> value -> Prop)) :=
  [("totalEaveLengthFt", eq);
   ("estimatedDownspouts", eq);
   ("miterCount", alike_at miter_steps);
   ("storiesByDirection", eq);
   ("assets", alike_at asset_steps)].

Definition payload_steps : list (string * (value -> value -> Prop)) :=
  [("gutterReport", alike_at report_steps)].

(** The payloads [data] and [data'] differ at most in that, at steps of
    the traversal, one holds null where the other has no key. *)
Definition null_for_absent (data data' : value) : Prop :=
  alike_at payload_steps data data'.

(** The integer [n] is in the range of a double: it does not round to an
    infinity. *)
Definition in_double_range (n : Z) : Prop :=
  match Float64.of_Z n with
  | S754_infinity _ => False
  | _ => True
  end.

(** The integers among the quantities of a record that the arithmetic
    converts to [float] are in the range of a double. *)
Definition quantities_in_range (t : MeasurementRecord) : Prop :=
  (forall n, eave_linear_ft t = VInt n -> in_double_range n) /\
  (forall n, downspouts t = VInt n -> in_double_range n) /\
  (forall a b, miters_inside t = VInt a -> miters_outside t = VInt b ->
               in_double_range (a + b)).

(** A double that is a number at least zero. *)
Definition non_negative (x : float) : Prop :=
  valid_binary Float64.prec Float64.emax x = true /\
  Float64.leb Float64.zero x = true.

Definition non_negative_rates (p : PricingConfig) : Prop :=
  non_negative (price_per_ft p) /\
  non_negative (labor_per_ft p) /\
  non_negative (downspout_each p) /\
  non_negative (miter_each p) /\
  non_negative (pitch_multiplier p) /\
  non_negative (story_multiplier p) /\
  non_negative (overhead_pct p) /\
  non_negative (profit_pct p) /\
  non_negative (sales_tax_pct p).

(** Two item lists with the same keys in the same order whose values are
    equal, except under the key [k] where they are related by [R]. *)
Definition same_but (k : string) (R : value -> value -> Prop)
    (d d' : list (string * value)) : Prop :=
  Forall2
    (fun i i' =>
       fst i = fst i' /\
       if String.eqb (fst i) k then R (snd i) (snd i') else snd i = snd i')
    d d'.

Definition dicts (R : list (string * value) -> list (string * value) -> Prop)
    (v v' : value) : Prop :=
  match v, v' with
  | VDict d, VDict d' => R d d'
  | _, _ => False
  end.

(** The payloads [data] and [data'] differ at most in the value of
    [gutterReport.assets.pdfUrl]. *)
Definition differ_in_pdf_url (data data' : value) : Prop :=
  dicts
    (same_but "gutterReport"
       (dicts
          (same_but "assets"
             (dicts (same_but "pdfUrl" (fun _ _ => True))))))
    data data'.

Definition map_result {A B : Type} (f : A -> B) (c : result A) : result B :=
  match c with
  | Ok a => Ok (f a)
  | Raise e => Raise e
  end.

Definition with_pdf_url (t : MeasurementRecord) (u : value)
  : MeasurementRecord :=
  {| eave_linear_ft := eave_linear_ft t;
     downspouts := downspouts t;
     miters_inside := miters_inside t;
     miters_outside := miters_outside t;
     stories_by_direction := stories_by_direction t;
     pdf_url := u |}.

(** An estimate with the echoed asset URL blanked. *)
Definition forget_pdf_url (r : EstimateResult) : EstimateResult :=
  {| inputs := with_pdf_url (inputs r) VNone;
     line_items := line_items r;
     totals := totals r |}.

(** ** The HTTP handlers (lines 29-103)

    One run of a handler, from its first line to its reply, with nothing
    interleaved.  The provider is the list of answers it will give, in
    order; the world keeps the token cache of the module and a log of the
    requests sent.  What the [httpx] client accepts to send is not code
    of the repository: its check of a request is a parameter. *)

Module Http.

Inductive method : Type := GET | POST.

(** A request of the [httpx] client.  [bearer] is the token the header
    [f"Bearer {token}"] is built from, kept as the value it is. *)
Record Request : Type := {
  verb : method;
  url : string;
  form : list (string * string);
  payload : option value;
  bearer : option value;
  timeout : Z
}.

(** An answer: [r.status_code], [r.text], and what [r.json()] returns,
    [None] when the body is not JSON and [r.json()] raises. *)
Record Response : Type := {
  status_code : Z;
  text : string;
  json : option value
}.

(** What the client raises instead of sending a request it cannot
    build: [httpx.InvalidURL] for a URL it cannot parse (a control
    character in [order_id]), or the exception of the encoding of the
    body or of a header ([ValueError] for a NaN among the options, which
    has no JSON form). *)
Inductive refusal : Type :=
| InvalidURL
| EncodeError (e : exn).

(** The client's check of a request before it is sent: [Some x] when it
    raises [x], and then nothing is sent. *)
Record Client : Type := {
  refuses : Request -> option refusal
}.

(** [EV_BASE], [EV_CLIENT_ID] and [EV_CLIENT_SECRET] (lines 7-9);
    [os.getenv] gives [None] for a variable that is not set. *)
Record Env : Type := {
  EV_BASE : string;
  EV_CLIENT_ID : option string;
  EV_CLIENT_SECRET : option string
}.

(** [_token_cache["access_token"]], the answers the provider has yet to
    give ([None] for a request that fails in transport), and the requests
    sent so far. *)
Record World : Type := {
  token_cache : value;
  wire : list (option Response);
  sent : list Request
}.

(** How a run ends: with a value, with [HTTPException(status, detail)],
    with another Python exception, with the client's refusal of a
    request, or with an error of the transport after a request is
    sent. *)
Inductive outcome (A : Type) : Type :=
| Return (a : A)
| HTTPException (status : Z) (detail : string)
| Uncaught (e : exn)
| Refused (x : refusal)
| TransportError.

Arguments Return {A} a.
Arguments HTTPException {A} status detail.
Arguments Uncaught {A} e.
Arguments Refused {A} x.
Arguments TransportError {A}.

Definition M (A : Type) : Type := World -> outcome A * World.

Definition ret {A : Type} (a : A) : M A := fun w => (Return a, w).

Definition and_then {A B : Type} (c : M A) (k : A -> M B) : M B :=
  fun w =>
    match c w with
    | (Return a, w') => k a w'
    | (HTTPException s d, w') => (HTTPException s d, w')
    | (Uncaught e, w') => (Uncaught e, w')
    | (Refused x, w') => (Refused x, w')
    | (TransportError, w') => (TransportError, w')
    end.

Notation "'run' x <- c ; k" := (and_then c (fun x => k))
  (at level 10, x name, c at level 100, k at level 200).

(** [raise HTTPException(status, detail)] *)
Definition http_exception {A : Type} (status : Z) (detail : string) : M A :=
  fun w => (HTTPException status detail, w).

(** A computation of the core, its exception left uncaught. *)
Definition lift {A : Type} (c : result A) : M A :=
  fun w =>
    match c with
    | Ok a => (Return a, w)
    | Raise e => (Uncaught e, w)
    end.

(** [await c.post(...)] and [await c.get(...)]: a request the client
    refuses raises before anything is sent; else the request goes out
    and the provider's next answer comes back, no answer left being a
    failure of the transport. *)
Definition send (c : Client) (rq : Request) : M Response :=
  fun w =>
    match refuses c rq with
    | Some x => (Refused x, w)
    | None =>
        let log := (sent w ++ [rq])%list in
        match wire w with
        | Some r :: rest =>
            (Return r,
             {| token_cache := token_cache w; wire := rest; sent := log |})
        | None :: rest =>
            (TransportError,
             {| token_cache := token_cache w; wire := rest; sent := log |})
        | [] =>
            (TransportError,
             {| token_cache := token_cache w; wire := []; sent := log |})
        end
    end.

(** [r.json()] *)
Definition json_of (r : Response) : M value :=
  match json r with
  | Some v => ret v
  | None => fun w => (Uncaught ValueError, w)
  end.

Definition read_cache : M value := fun w => (Return (token_cache w), w).

Definition write_cache (v : value) : M unit :=
  fun w => (Return tt, {| token_cache := v; wire := wire w; sent := sent w |}).

(** [EV_CLIENT_ID and EV_CLIENT_SECRET], when truthy: both set and not
    empty. *)
Definition credentials (env : Env) : option (string * string) :=
  match EV_CLIENT_ID env, EV_CLIENT_SECRET env with
  | Some id, Some secret =>
      if String.eqb id "" then None
      else if String.eqb secret "" then None
      else Some (id, secret)
  | _, _ => None
  end.

(** The request of lines 38-42. *)
Definition token_request (env : Env) (id secret : string) : Request :=
  {| verb := POST;
     url := EV_BASE env ++ "/oauth2/token";
     form := [("grant_type", "client_credentials");
              ("client_id", id);
              ("client_secret", secret)];
     payload := None;
     bearer := None;
     timeout := 30 |}.

(** Lines 43-46: what [get_token] does with the answer, once the
    [await] of line 38 gives it.  The cache is not tested again. *)
Definition token_answered (r : Response) : M value :=
  if 400 <=? status_code r
  then http_exception (status_code r) ("Auth failed: " ++ text r)
  else
    run body <- json_of r;
    run token <- lift (Py.get body "access_token");
    run _ <- write_cache token;
    read_cache.

(** [get_token] (lines 32-46) *)
Definition get_token (c : Client) (env : Env) : M value :=
  run cached <- read_cache;
  if Py.truthy cached then ret cached
  else
    match credentials env with
    | None => http_exception 500 "EagleView credentials not set"
    | Some (id, secret) =>
        run r <- send c (token_request env id secret);
        token_answered r
    end.

(** [GutterOrder] (lines 49-55), as FastAPI hands it to the handler. *)
Record GutterOrder : Type := {
  address1 : string;
  city : string;
  state : string;
  postal_code : string;
  country : string;
  options : list (string * value)
}.

(** The [payload] dict of lines 61-72; [reference] is
    [str(uuid.uuid4())]. *)
Definition order_payload (reference : string) (body : GutterOrder) : value :=
  VDict [("orderReference", VStr reference);
         ("location",
          VDict [("addressLine1", VStr (address1 body));
                 ("city", VStr (city body));
                 ("state", VStr (state body));
                 ("postalCode", VStr (postal_code body));
                 ("country", VStr (country body))]);
         ("products", VList [VDict [("type", VStr "GUTTER")]]);
         ("metadata", VDict [("options", VDict (options body))])].

Definition order_request (env : Env) (token : value) (reference : string)
    (body : GutterOrder) : Request :=
  {| verb := POST;
     url := EV_BASE env ++ "/measurement-orders/v1/orders";
     form := [];
     payload := Some (order_payload reference body);
     bearer := Some token;
     timeout := 60 |}.

Definition status_request (env : Env) (token : value) (order_id : string)
  : Request :=
  {| verb := GET;
     url := EV_BASE env ++ "/measurement-orders/v1/orders/" ++ order_id;
     form := [];
     payload := None;
     bearer := Some token;
     timeout := 30 |}.

Definition results_request (env : Env) (token : value) (order_id : string)
  : Request :=
  {| verb := GET;
     url := EV_BASE env ++ "/measurement-orders/v1/orders/" ++ order_id
            ++ "/results";
     form := [];
     payload := None;
     bearer := Some token;
     timeout := 60 |}.

(** Lines 77-79 and 88-90: the provider's error is passed on, its JSON
    returned. *)
Definition passed_on (r : Response) : M value :=
  if 400 <=? status_code r
  then http_exception (status_code r) (text r)
  else json_of r.

(** [create_order] (lines 58-79) *)
Definition create_order (c : Client) (env : Env) (reference : string)
    (body : GutterOrder) : M value :=
  run token <- get_token c env;
  run r <- send c (order_request env token reference body);
  passed_on r.

(** [get_order] (lines 82-90) *)
Definition get_order (c : Client) (env : Env) (order_id : string) : M value :=
  run token <- get_token c env;
  run r <- send c (status_request env token order_id);
  passed_on r.

(** Lines 99-158: what [get_results] does with the answer. *)
Definition results_answered (rd : Py.reader) (r : Response)
  : M EstimateResult :=
  if status_code r =? 404
  then http_exception 404 "Results not ready yet"
  else if 400 <=? status_code r
  then http_exception (status_code r) (text r)
  else
    run data <- json_of r;
    lift (estimate rd pricing data).

(** The handler [get_results] whole (lines 93-158): the request, then the
    estimate of the answer. *)
Definition get_results (rd : Py.reader) (c : Client) (env : Env)
    (order_id : string) : M EstimateResult :=
  run token <- get_token c env;
  run r <- send c (results_request env token order_id);
  results_answered rd r.

(** The world after a request: one answer consumed, the request logged,
    the cache as it was. *)
Definition after_send (rq : Request) (w : World) : World :=
  {| token_cache := token_cache w;
     wire := tl (wire w);
     sent := (sent w ++ [rq])%list |}.

(** The world with [token] in the cache. *)
Definition with_token (token : value) (w : World) : World :=
  {| token_cache := token; wire := wire w; sent := sent w |}.

(** A run from [w] that sends the request [rq] and nothing else, ending
    in [end_]; or, when the client refuses [rq], that sends nothing at
    all and ends with the refusal in the world as it was. *)
Definition sends_only {A : Type} (c : Client) (rq : Request) (w : World)
    (end_ : outcome A * World) : Prop :=
  match refuses c rq with
  | Some x => end_ = (Refused x, w)
  | None => snd end_ = after_send rq w
  end.

(** A failure, whatever value was expected. *)
Definition failed_as {A B : Type} (o : outcome A) : outcome B :=
  match o with
  | Return _ => TransportError
  | HTTPException s d => HTTPException s d
  | Uncaught e => Uncaught e
  | Refused x => Refused x
  | TransportError => TransportError
  end.

Definition returned {A : Type} (o : outcome A) : bool :=
  match o with
  | Return _ => true
  | _ => false
  end.

(** The status an [HTTPException] carries is an error status. *)
Definition error_status {A : Type} (o : outcome A) : Prop :=
  match o with
  | HTTPException s _ => 400 <= s
  | _ => True
  end.

End Http.

(** ** Vocabulary of the further properties *)

(** [d.get(k)] on the items of a dict. *)
Definition entry (d : list (string * value)) (k : string) : value :=
  match Py.lookup d k with
  | Some v => v
  | None => VNone
  end.

(** The items of [v or {}], when that is a dict: [v] is falsy or a
    dict. *)
Definition or_empty_dict (v : value) : option (list (string * value)) :=
  if Py.truthy v
  then match v with VDict d => Some d | _ => None end
  else Some [].

(** The keys lines 107-112 read in [gutterReport]. *)
Definition read_keys : list string :=
  ["totalEaveLengthFt"; "estimatedDownspouts"; "miterCount";
   "storiesByDirection"; "assets"].

(** [x] is the value [v] kept as it is when it is truthy, and the
    default [dflt] when it is falsy. *)
Definition kept_or (dflt v x : value) : Prop :=
  (Py.truthy v = true /\ x = v) \/ (Py.truthy v = false /\ x = dflt).

(** The record with the two miter counts exchanged. *)
Definition swap_miters (t : MeasurementRecord) : MeasurementRecord :=
  {| eave_linear_ft := eave_linear_ft t;
     downspouts := downspouts t;
     miters_inside := miters_outside t;
     miters_outside := miters_inside t;
     stories_by_direction := stories_by_direction t;
     pdf_url := pdf_url t |}.

(** A record with the stories [d] and nothing else. *)
Definition stories_record (d : list (string * value)) : MeasurementRecord :=
  {| eave_linear_ft := VFloat Float64.zero;
     downspouts := VInt 0;
     miters_inside := VInt 0;
     miters_outside := VInt 0;
     stories_by_direction := VDict d;
     pdf_url := VNone |}.

(** What the display of a line shows beside its label and amount. *)
Definition shown (l : LineItem) : option value * option string * option float :=
  (qty l, uom l, unit_price l).

(** A double of the format: every [float] Python holds is one. *)
Definition valid (x : float) : Prop :=
  valid_binary Float64.prec Float64.emax x = true.

(** The environment of a deployment, an empty world in which the
    provider will answer a token request and a results request, and an
    order. *)
Definition demo_env : Http.Env :=
  {| Http.EV_BASE := "https://api.eagleview.com";
     Http.EV_CLIENT_ID := Some "id";
     Http.EV_CLIENT_SECRET := Some "secret" |}.

Definition no_credentials_env : Http.Env :=
  {| Http.EV_BASE := "https://api.eagleview.com";
     Http.EV_CLIENT_ID := Some "id";
     Http.EV_CLIENT_SECRET := Some "" |}.

(** The text holds a control character (a code below 32). *)
Fixpoint has_control (s : string) : bool :=
  match s with
  | EmptyString => false
  | String c s' => (Ascii.nat_of_ascii c <? 32)%nat || has_control s'
  end.

(** A client that refuses a URL holding a control character and sends
    every other request. *)
Definition demo_client : Http.Client :=
  {| Http.refuses := fun rq =>
       if has_control (Http.url rq) then Some Http.InvalidURL else None |}.

(** An order id with a tab in it. *)
Definition tab_id : string := "4" ++ String (Ascii.ascii_of_nat 9) "2".

Definition answer (status : Z) (body : value) : option Http.Response :=
  Some {| Http.status_code := status; Http.text := ""; Http.json := Some body |}.

Definition demo_world : Http.World :=
  {| Http.token_cache := VNone;
     Http.wire := [answer 200 (VDict [("access_token", VStr "tok")]);
                   answer 200 scenario];
     Http.sent := [] |}.

(** The provider answers the token request with an object that has no
    [access_token]. *)
Definition tokenless_world : Http.World :=
  {| Http.token_cache := VNone;
     Http.wire := [answer 200 (VDict [("error", VStr "none")]);
                   answer 401 VNone];
     Http.sent := [] |}.

Definition demo_order : Http.GutterOrder :=
  {| Http.address1 := "1 Main St";
     Http.city := "Springfield";
     Http.state := "IL";
     Http.postal_code := "62701";
     Http.country := "US";
     Http.options := [] |}.

(** ** Inversion of successful runs *)

Lemma bind_Ok {A B : Type} (c : result A) (k : A -> result B) (b : B) :
  bind c k = Ok b -> exists a, c = Ok a /\ k a = Ok b.
Proof.
  destruct c as [a | e]; simpl; intros H.
  - exists a. split; [reflexivity | exact H].
  - discriminate H.
Qed.

Ltac bind_inv H :=
  let a := fresh "x" in
  let E := fresh "E" in
  apply bind_Ok in H; destruct H as (a & E & H).

Ltac ok_inv H := injection H as H; subst.

Lemma extract_inv data t :
  extract data = Ok t ->
  exists g mc assets,
    gutter data = Ok g /\
    Py.get g "miterCount" = Ok mc /\
    Py.get g "assets" = Ok assets /\
    exists eave n_ds m_in m_out stories url,
      Py.get g "totalEaveLengthFt" = Ok eave /\
      Py.get g "estimatedDownspouts" = Ok n_ds /\
      Py.get (Py.or_ mc empty_dict) "inside90" = Ok m_in /\
      Py.get (Py.or_ mc empty_dict) "outside90" = Ok m_out /\
      Py.get g "storiesByDirection" = Ok stories /\
      Py.get (Py.or_ assets empty_dict) "pdfUrl" = Ok url /\
      t = {| eave_linear_ft := Py.or_ eave (VFloat Float64.zero);
             downspouts := Py.or_ n_ds (VInt 0);
             miters_inside := Py.or_ m_in (VInt 0);
             miters_outside := Py.or_ m_out (VInt 0);
             stories_by_direction := Py.or_ stories empty_dict;
             pdf_url := url |}.
Proof.
  unfold extract. intros H.
  bind_inv H. rename x into g, E into Hg.
  bind_inv H. rename x into eave, E into He.
  bind_inv H. rename x into n_ds, E into Hd.
  bind_inv H. rename x into mc, E into Hmc.
  bind_inv H. rename x into m_in, E into Hin.
  bind_inv H. rename x into mc', E into Hmc'.
  bind_inv H. rename x into m_out, E into Hout.
  bind_inv H. rename x into stories, E into Hs.
  bind_inv H. rename x into assets, E into Ha.
  bind_inv H. rename x into url, E into Hu.
  ok_inv H.
  rewrite Hmc in Hmc'. injection Hmc' as <-.
  exists g, mc, assets. repeat split; try assumption.
  exists eave, n_ds, m_in, m_out, stories, url.
  repeat split; assumption.
Qed.

(** The bump touches the story multiplier and nothing else. *)
Lemma bump_story_inv p0 t p :
  bump_story p0 t = Ok p ->
  exists b,
    any_two_stories t = Ok b /\
    p = set_story_multiplier p0
          (if b then Float64.literal 110 2 else story_multiplier p0).
Proof.
  unfold bump_story. intros H. bind_inv H. ok_inv H.
  exists x. split; [assumption | ].
  destruct x; [reflexivity | ]. destruct p0; reflexivity.
Qed.

Lemma quantities_inv rd t q :
  quantities rd t = Ok q ->
  exists m_in m_out,
    Py.float_ rd (eave_linear_ft t) = Ok (eave_ft q) /\
    Py.int_ rd (downspouts t) = Ok (ds q) /\
    Py.int_ rd (miters_inside t) = Ok m_in /\
    Py.int_ rd (miters_outside t) = Ok m_out /\
    miters q = m_in + m_out.
Proof.
  unfold quantities. intros H.
  do 4 bind_inv H. ok_inv H. simpl.
  eexists _, _. repeat split; eassumption.
Qed.

Lemma amounts_inv p eave n_ds n_miters a :
  amounts p eave n_ds n_miters = Ok a ->
  exists ds_amt miters_amt,
    Py.int_mul_float n_ds (downspout_each p) = Ok ds_amt /\
    Py.int_mul_float n_miters (miter_each p) = Ok miters_amt /\
    base_mat a = Float64.mul eave (price_per_ft p) /\
    base_lab a =
      Float64.mul
        (Float64.mul (Float64.mul eave (labor_per_ft p)) (pitch_multiplier p))
        (story_multiplier p) /\
    accessories a = Float64.add ds_amt miters_amt /\
    a_subtotal a =
      Float64.add (Float64.add (base_mat a) (base_lab a)) (accessories a) /\
    overhead a = Float64.mul (a_subtotal a) (overhead_pct p) /\
    pre_profit a = Float64.add (a_subtotal a) (overhead a) /\
    profit a = Float64.mul (pre_profit a) (profit_pct p) /\
    sales_tax a =
      Float64.mul (Float64.add (base_mat a) (accessories a))
        (sales_tax_pct p) /\
    a_total a =
      Float64.add (Float64.add (pre_profit a) (profit a)) (sales_tax a).
Proof.
  unfold amounts. intros H.
  bind_inv H. bind_inv H. ok_inv H. simpl.
  eexists _, _. repeat split; eassumption.
Qed.

Lemma unrounded_inv rd p0 t p q a :
  unrounded rd p0 t = Ok (p, q, a) ->
  bump_story p0 t = Ok p /\
  quantities rd t = Ok q /\
  amounts p (eave_ft q) (ds q) (miters q) = Ok a.
Proof.
  unfold unrounded. intros H.
  do 3 bind_inv H. ok_inv H. repeat split; assumption.
Qed.

Lemma lines_labels p eave n_ds n_miters a ls :
  lines p eave n_ds n_miters a = Ok ls ->
  map label ls =
    [ "Gutter materials"; "Labor";
      "Downspouts (" ++ Py.str_of_int n_ds ++ ")";
      "Miters (" ++ Py.str_of_int n_miters ++ ")";
      "Overhead"; "Profit"; "Sales tax" ]%string.
Proof.
  unfold lines. intros H.
  bind_inv H. bind_inv H. ok_inv H. reflexivity.
Qed.

Lemma price_inv rd p0 t r :
  price rd p0 t = Ok r ->
  exists p q a ls,
    unrounded rd p0 t = Ok (p, q, a) /\
    lines p (eave_ft q) (ds q) (miters q) a = Ok ls /\
    r = {| inputs := t;
           line_items := ls;
           totals := {| subtotal := Float64.round (a_subtotal a) 2;
                        total := Float64.round (a_total a) 2 |} |}.
Proof.
  unfold price. intros H.
  bind_inv H. destruct x as [[p q] a].
  bind_inv H. ok_inv H.
  exists p, q, a, x. repeat split; assumption.
Qed.

(** The record an estimate echoes is the extracted one. *)
Lemma estimate_inputs rd p0 data r :
  estimate rd p0 data = Ok r -> extract data = Ok (inputs r).
Proof.
  unfold estimate. intros H. bind_inv H.
  apply price_inv in H. destruct H as (p & q & a & ls & _ & _ & ->).
  exact E.
Qed.

(** ** The float model on known values *)

(** [1.1] is the double [0x1.199999999999ap+0]. *)
Example literal_1_10 :
  Float64.literal 110 2 = S754_finite false 4953959590107546 (-52).
Proof. reflexivity. Qed.

(** [round(2.675, 2) == 2.67]: the double [2.675] lies below the decimal;
    [round(0.125, 2) == 0.12] and [round(0.375, 2) == 0.38]: exact ties
    go to the even digit. *)
Example round_known_values :
  Float64.round (Float64.literal 2675 3) 2 = Float64.literal 267 2 /\
  Float64.round (Float64.literal 125 3) 2 = Float64.literal 12 2 /\
  Float64.round (Float64.literal 375 3) 2 = Float64.literal 38 2.
Proof. repeat split; vm_compute; reflexivity. Qed.

(** [100 * 5.00 * 1.10 * 1.10 == 605.0], the rounding errors cancelling,
    while [0.1 + 0.2 != 0.3]. *)
Example arithmetic_known_values :
  Float64.mul
    (Float64.mul (Float64.mul (Float64.of_Z 100) (Float64.literal 500 2))
       (Float64.literal 110 2))
    (Float64.literal 110 2) = Float64.of_Z 605 /\
  Float64.add (Float64.literal 1 1) (Float64.literal 2 1) <>
    Float64.literal 3 1.
Proof. split; vm_compute; [reflexivity | discriminate]. Qed.

(** [float(2**1024)] raises, [float(2**1024 - 2**970 - 1)] is the largest
    double, and [int(-2.7) == -2]. *)
Example conversion_known_values :
  Py.float_of_int (2 ^ 1024) = Raise OverflowError /\
  Py.float_of_int (2 ^ 1024 - 2 ^ 970 - 1) =
    Ok (S754_finite false (2 ^ 53 - 1) 971) /\
  Py.int_ Py.no_text (VFloat (Float64.literal (-27) 1)) = Ok (-2).
Proof. repeat split; vm_compute; reflexivity. Qed.

(** ** Rounding in binary64 *)

Module Float64Facts.
Import Float64.

Lemma fexp64_eq e : fexp64 e = Z.max (e - 53) (-1074).
Proof. reflexivity. Qed.

Lemma digits_pos m : 0 < digits m.
Proof. unfold digits. lia. Qed.

Lemma digits_bounds m : 2 ^ (digits m - 1) <= Zpos m < 2 ^ digits m.
Proof.
  unfold digits. induction m as [m IH | m IH | ]; cbn [digits2_pos].
  - rewrite Pos2Z.inj_succ.
    replace (Z.succ (Zpos (digits2_pos m)) - 1)
      with (Z.succ (Zpos (digits2_pos m) - 1)) by lia.
    rewrite !Z.pow_succ_r by lia. lia.
  - rewrite Pos2Z.inj_succ.
    replace (Z.succ (Zpos (digits2_pos m)) - 1)
      with (Z.succ (Zpos (digits2_pos m) - 1)) by lia.
    rewrite !Z.pow_succ_r by lia. lia.
  - simpl. lia.
Qed.

Lemma digits_unique m d : 2 ^ (d - 1) <= Zpos m < 2 ^ d -> digits m = d.
Proof.
  intros [Hlo Hhi]. pose proof (digits_bounds m) as [Blo Bhi].
  pose proof (digits_pos m) as Hp.
  assert (0 < d).
  { destruct (Z_lt_le_dec 0 d) as [ | Hd]; [assumption | ].
    assert (2 ^ d <= 2 ^ 0) by (apply Z.pow_le_mono_r; lia).
    simpl in *. lia. }
  destruct (Z_lt_le_dec (digits m) d) as [Hlt | Hge].
  - assert (2 ^ digits m <= 2 ^ (d - 1)) by (apply Z.pow_le_mono_r; lia). lia.
  - destruct (Z_lt_le_dec d (digits m)) as [Hlt | Hle]; [ | lia ].
    assert (2 ^ d <= 2 ^ (digits m - 1)) by (apply Z.pow_le_mono_r; lia). lia.
Qed.

Lemma digits_le m n : (m <= n)%positive -> digits m <= digits n.
Proof.
  intros H. pose proof (digits_bounds m) as [Blo _].
  pose proof (digits_bounds n) as [_ Bhi].
  destruct (Z_lt_le_dec (digits n) (digits m)) as [Hlt | ]; [ | assumption ].
  pose proof (digits_pos n).
  assert (2 ^ digits n <= 2 ^ (digits m - 1))
    by (apply Z.pow_le_mono_r; lia).
  lia.
Qed.

(** Digits of a quotient by a power of two that does not vanish. *)
Lemma digits_shr m n q :
  0 <= n -> Zpos m / 2 ^ n = Zpos q -> digits q = digits m - n.
Proof.
  intros Hn Hq. apply digits_unique.
  pose proof (digits_bounds m) as [Blo Bhi].
  assert (Hp : 0 < 2 ^ n) by (apply Z.pow_pos_nonneg; lia).
  rewrite <- Hq. split.
  - destruct (Z_lt_le_dec (digits m - n - 1) 0) as [Hneg | Hnn].
    + rewrite Z.pow_neg_r by lia. apply Z.div_pos; lia.
    + apply Z.div_le_lower_bound; [lia | ].
      rewrite <- Z.pow_add_r by lia.
      replace (n + (digits m - n - 1)) with (digits m - 1) by lia. exact Blo.
  - destruct (Z_lt_le_dec (digits m - n) 0) as [Hneg | Hnn].
    + exfalso.
      assert (2 ^ digits m <= 2 ^ n) by (apply Z.pow_le_mono_r; lia).
      assert (Zpos m / 2 ^ n = 0) by (apply Z.div_small; lia). lia.
    + apply Z.div_lt_upper_bound; [lia | ].
      rewrite <- Z.pow_add_r by lia.
      replace (n + (digits m - n)) with (digits m) by lia. exact Bhi.
Qed.

Lemma digits_shl m n q :
  0 <= n -> Zpos q = Zpos m * 2 ^ n -> digits q = digits m + n.
Proof.
  intros Hn Hq. apply digits_unique. rewrite Hq.
  pose proof (digits_bounds m) as [Blo Bhi]. pose proof (digits_pos m).
  assert (Hp : 0 < 2 ^ n) by (apply Z.pow_pos_nonneg; lia).
  replace (digits m + n - 1) with (digits m - 1 + n) by lia.
  rewrite !Z.pow_add_r by lia. split; nia.
Qed.

Lemma digits_mul mx my :
  digits mx + digits my - 1 <= digits (mx * my).
Proof.
  pose proof (digits_bounds mx) as [Bx _].
  pose proof (digits_bounds my) as [By _].
  pose proof (digits_bounds (mx * my)) as [_ Bxy].
  pose proof (digits_pos mx). pose proof (digits_pos my).
  pose proof (digits_pos (mx * my)).
  destruct (Z_lt_le_dec (digits (mx * my)) (digits mx + digits my - 1))
    as [Hlt | ]; [ | assumption ].
  exfalso.
  assert (2 ^ digits (mx * my) <= 2 ^ (digits mx - 1 + (digits my - 1)))
    by (apply Z.pow_le_mono_r; lia).
  rewrite Z.pow_add_r in * by lia.
  rewrite Pos2Z.inj_mul in Bxy.
  assert (0 < 2 ^ (digits mx - 1)) by (apply Z.pow_pos_nonneg; lia).
  assert (0 < 2 ^ (digits my - 1)) by (apply Z.pow_pos_nonneg; lia).
  nia.
Qed.

Lemma pow2_xO p : 2 ^ Zpos p~0 = 2 ^ Zpos p * 2 ^ Zpos p.
Proof.
  rewrite (Pos2Z.inj_xO p).
  replace (2 * Zpos p) with (Zpos p + Zpos p) by lia.
  apply Z.pow_add_r; lia.
Qed.

Lemma pow2_xI p : 2 ^ Zpos p~1 = 2 * (2 ^ Zpos p * 2 ^ Zpos p).
Proof.
  rewrite (Pos2Z.inj_xI p).
  replace (2 * Zpos p + 1) with (Z.succ (2 * Zpos p)) by lia.
  rewrite Z.pow_succ_r by lia.
  rewrite <- (Pos2Z.inj_xO p), pow2_xO. reflexivity.
Qed.

Lemma shr_1_m mrs : 0 <= shr_m mrs -> shr_m (shr_1 mrs) = shr_m mrs / 2.
Proof.
  destruct mrs as [m r s]. cbn [shr_m]. intros Hm.
  destruct m as [ | [p | p | ] | p]; cbn [shr_1 shr_m]; try lia.
  - reflexivity.
  - apply Z.div_unique with 1; lia.
  - apply Z.div_unique with 0; lia.
  - reflexivity.
Qed.

Lemma shr_1_nonneg mrs : 0 <= shr_m mrs -> 0 <= shr_m (shr_1 mrs).
Proof.
  intros H. rewrite shr_1_m by assumption. apply Z.div_pos; lia.
Qed.

Lemma iter_shr_1_m p : forall mrs,
  0 <= shr_m mrs ->
  shr_m (iter_pos shr_1 p mrs) = shr_m mrs / 2 ^ Zpos p.
Proof.
  induction p as [p IH | p IH | ]; intros mrs Hm; cbn [iter_pos].
  - assert (H1 : 0 <= shr_m (shr_1 mrs)) by (apply shr_1_nonneg; assumption).
    assert (H2 : 0 <= shr_m (iter_pos shr_1 p (shr_1 mrs))).
    { rewrite IH by assumption.
      apply Z.div_pos; [lia | apply Z.pow_pos_nonneg; lia]. }
    rewrite IH by assumption. rewrite IH by assumption.
    rewrite shr_1_m by assumption.
    rewrite !Z.div_div by (try apply Z.pow_pos_nonneg; lia).
    f_equal. symmetry. apply pow2_xI.
  - assert (H2 : 0 <= shr_m (iter_pos shr_1 p mrs)).
    { rewrite IH by assumption.
      apply Z.div_pos; [lia | apply Z.pow_pos_nonneg; lia]. }
    rewrite IH by assumption. rewrite IH by assumption.
    rewrite !Z.div_div by (try apply Z.pow_pos_nonneg; lia).
    f_equal. symmetry. apply pow2_xO.
  - rewrite shr_1_m by assumption. reflexivity.
Qed.

Lemma shr_spec mrs e n :
  0 <= shr_m mrs ->
  shr_m (fst (shr mrs e n)) = shr_m mrs / 2 ^ Z.max n 0 /\
  snd (shr mrs e n) = e + Z.max n 0.
Proof.
  intros Hm. destruct n as [ | p | p]; cbn [shr fst snd].
  - simpl. rewrite Z.div_1_r. lia.
  - rewrite iter_shr_1_m by assumption.
    replace (Z.max (Zpos p) 0) with (Zpos p) by lia. split; reflexivity.
  - replace (Z.max (Zneg p) 0) with 0 by lia. simpl. rewrite Z.div_1_r. lia.
Qed.

Lemma shr_record_of_loc_m m l : shr_m (shr_record_of_loc m l) = m.
Proof. destruct l as [ | [ | | ]]; reflexivity. Qed.

Lemma shr_fexp_spec m e l :
  0 <= m ->
  shr_m (fst (shr_fexp prec emax m e l)) =
    m / 2 ^ Z.max (fexp64 (Zdigits2 m + e) - e) 0 /\
  snd (shr_fexp prec emax m e l) = e + Z.max (fexp64 (Zdigits2 m + e) - e) 0.
Proof.
  intros Hm. unfold shr_fexp.
  pose proof (shr_spec (shr_record_of_loc m l) e
                (fexp prec emax (Zdigits2 m + e) - e)) as H.
  rewrite shr_record_of_loc_m in H. apply H. exact Hm.
Qed.

Lemma round_nearest_even_bounds m l :
  m <= round_nearest_even m l <= m + 1.
Proof.
  destruct l as [ | [ | | ]]; cbn [round_nearest_even]; try lia.
  destruct (Z.even m); lia.
Qed.

Lemma binary_round_aux_spec sx mx ex :
  ex <= fexp64 (digits mx + ex) ->
  rounded sx mx ex (binary_round_aux prec emax sx (Zpos mx) ex loc_Exact).
Proof.
  intros Hex. unfold rounded, binary_round_aux.
  set (e1 := fexp64 (digits mx + ex)) in *.
  destruct (shr_fexp_spec (Zpos mx) ex loc_Exact ltac:(lia)) as [Hm1 He1].
  destruct (shr_fexp prec emax (Zpos mx) ex loc_Exact) as [mrs' e'].
  cbn [fst snd] in Hm1, He1. cbn [Zdigits2] in Hm1, He1.
  fold (digits mx) in Hm1, He1. fold e1 in Hm1, He1.
  replace (Z.max (e1 - ex) 0) with (e1 - ex) in Hm1, He1 by lia.
  replace (ex + (e1 - ex)) with e1 in He1 by lia. subst e'.
  set (m1 := Zpos mx / 2 ^ (e1 - ex)) in *.
  assert (Hp : 0 < 2 ^ (e1 - ex)) by (apply Z.pow_pos_nonneg; lia).
  assert (Hm1pos : 0 <= m1) by (apply Z.div_pos; lia).
  pose proof (round_nearest_even_bounds (shr_m mrs') (loc_of_shr_record mrs'))
    as Hm2.
  set (m2 := round_nearest_even (shr_m mrs') (loc_of_shr_record mrs')) in *.
  rewrite Hm1 in Hm2.
  destruct (shr_fexp_spec m2 e1 loc_Exact ltac:(lia)) as [Hm3 He3].
  destruct (shr_fexp prec emax m2 e1 loc_Exact) as [mrs'' e''].
  cbn [fst snd] in Hm3, He3.
  set (n2 := Z.max (fexp64 (Zdigits2 m2 + e1) - e1) 0) in *.
  assert (Hn2 : 0 <= n2) by (unfold n2; lia).
  assert (Hp2 : 0 < 2 ^ n2) by (apply Z.pow_pos_nonneg; lia).
  assert (He1min : -1074 <= e1) by (unfold e1; rewrite fexp64_eq; lia).
  (* a positive rounded mantissa survives the second shift *)
  assert (Hsurvive : forall q, m2 = Zpos q -> 0 < Zpos q / 2 ^ n2).
  { intros q Hq. pose proof (digits_bounds q) as [Blo _].
    pose proof (digits_pos q) as Hdq.
    assert (Hle : 2 ^ n2 <= Zpos q).
    { apply Z.le_trans with (2 ^ (digits q - 1)); [ | exact Blo ].
      apply Z.pow_le_mono_r; [lia | ].
      unfold n2. rewrite Hq. cbn [Zdigits2]. fold (digits q).
      rewrite fexp64_eq. lia. }
    apply Z.div_str_pos. lia. }
  (* the target exponent is the canonical one of the truncated mantissa *)
  assert (Hcanon1 : forall q, m2 = Zpos q -> e1 <= fexp64 (digits q + e1)).
  { intros q Hq. destruct m1 as [ | q1 | q1 ] eqn:Em1; [ | | lia ].
    - assert (Hsmall : Zpos mx < 2 ^ (e1 - ex)).
      { destruct (Z_lt_le_dec (Zpos mx) (2 ^ (e1 - ex))) as [ | Hge];
          [assumption | ].
        assert (1 <= Zpos mx / 2 ^ (e1 - ex)).
        { apply Z.div_le_lower_bound; lia. }
        unfold m1 in Em1. lia. }
      pose proof (digits_bounds mx) as [Blo _].
      assert (digits mx - 1 < e1 - ex).
      { apply (Z.pow_lt_mono_r_iff 2); lia. }
      rewrite fexp64_eq. unfold e1 in *. rewrite fexp64_eq in *. lia.
    - assert (Hd1 : digits q1 = digits mx - (e1 - ex)).
      { apply digits_shr; [lia | exact Em1]. }
      assert (Hle : digits q1 <= digits q).
      { apply digits_le. lia. }
      rewrite fexp64_eq. unfold e1 in *. rewrite fexp64_eq in *. lia. }
  (* the second shift is by one digit at most *)
  assert (Hn2le : n2 <= 1).
  { destruct m2 as [ | q | q ] eqn:Em2; [ | | lia ].
    - unfold n2. cbn [Zdigits2]. rewrite fexp64_eq. lia.
    - specialize (Hcanon1 q eq_refl).
      assert (Hq : digits q + e1 <= Z.max (digits mx + ex) (-1074 + 1) + 1).
      { destruct m1 as [ | q1 | q1 ] eqn:Em1; [ | | lia ].
        - assert (q = 1%positive) by lia. subst q. unfold digits at 1.
          cbn [digits2_pos].
          assert (Hsmall : Zpos mx < 2 ^ (e1 - ex)).
          { destruct (Z_lt_le_dec (Zpos mx) (2 ^ (e1 - ex))) as [ | Hge];
              [assumption | ].
            assert (1 <= Zpos mx / 2 ^ (e1 - ex)).
            { apply Z.div_le_lower_bound; lia. }
            unfold m1 in Em1. lia. }
          pose proof (digits_bounds mx) as [Blo _].
          assert (digits mx - 1 < e1 - ex).
          { apply (Z.pow_lt_mono_r_iff 2); lia. }
          unfold e1 in *. rewrite fexp64_eq in *. lia.
        - assert (Hd1 : digits q1 = digits mx - (e1 - ex)).
          { apply digits_shr; [lia | exact Em1]. }
          pose proof (digits_bounds q1) as [_ Bhi].
          pose proof (digits_bounds q) as [Blo _].
          pose proof (digits_pos q1).
          assert (digits q - 1 < digits q1 + 1).
          { apply (Z.pow_lt_mono_r_iff 2); [lia | lia | ].
            rewrite Z.pow_add_r, Z.pow_1_r by lia. lia. }
          lia. }
      unfold n2. cbn [Zdigits2]. fold (digits q).
      unfold e1 in *. rewrite !fexp64_eq in *. lia. }
  rewrite Hm3 in *.
  destruct (m2 / 2 ^ n2) as [ | m | m ] eqn:Em3.
  - split; [reflexivity | ].
    destruct m2 as [ | q | q ] eqn:Em2; [lia | | lia ].
    specialize (Hsurvive q eq_refl). lia.
  - destruct (e'' <=? emax - prec) eqn:Ebound;
      [ | split; [reflexivity | apply Z.leb_gt in Ebound; lia ] ].
    split; [reflexivity | ].
    destruct m2 as [ | q | q ] eqn:Em2;
      [ rewrite Z.div_0_l in Em3 by lia; discriminate | | lia ].
    specialize (Hcanon1 q eq_refl).
    assert (Hn2eq : n2 = Z.max (fexp64 (digits q + e1) - e1) 0) by reflexivity.
    split; [ | split; [lia | ] ].
    + unfold bounded, canonical_mantissa. rewrite Ebound, andb_true_r.
      apply Z.eqb_eq. fold (digits m). fold (fexp64 (digits m + e'')).
      assert (Hdm : digits m = digits q - n2) by (apply digits_shr; assumption).
      rewrite Hdm, He3.
      replace (digits q - n2 + (e1 + n2)) with (digits q + e1) by lia.
      lia.
    + intros He. assert (n2 = 0) by lia.
      replace n2 with 0 in Em3. rewrite Z.div_1_r in Em3. lia.
  - exfalso. assert (0 <= m2 / 2 ^ n2) by (apply Z.div_pos; lia). lia.
Qed.

Lemma iter_xO m d : Zpos (Pos.iter xO m d) = Zpos m * 2 ^ Zpos d.
Proof.
  induction d as [ | d IH ] using Pos.peano_ind.
  - simpl. lia.
  - rewrite Pos.iter_succ, (Pos2Z.inj_xO (Pos.iter xO m d)), IH.
    rewrite Pos2Z.inj_succ, Z.pow_succ_r by lia. lia.
Qed.

Lemma shl_align_spec mx ex ex' :
  let ez := Z.min ex ex' in
  snd (shl_align mx ex ex') = ez /\
  Zpos (fst (shl_align mx ex ex')) = Zpos mx * 2 ^ (ex - ez) /\
  digits (fst (shl_align mx ex ex')) + ez = digits mx + ex.
Proof.
  unfold shl_align. destruct (ex' - ex) as [ | d | d ] eqn:Ed; cbn [fst snd].
  - replace (Z.min ex ex') with ex by lia.
    rewrite Z.sub_diag, Z.pow_0_r. lia.
  - replace (Z.min ex ex') with ex by lia.
    rewrite Z.sub_diag, Z.pow_0_r. lia.
  - replace (Z.min ex ex') with ex' by lia.
    assert (Hd : ex - ex' = Zpos d) by lia.
    rewrite Hd. split; [reflexivity | ]. split; [apply iter_xO | ].
    rewrite (digits_shl mx (Zpos d) (Pos.iter xO mx d)); [lia | lia | ].
    apply iter_xO.
Qed.

(** [binary_round] aligns the mantissa and rounds it. *)
Lemma binary_round_spec sx mx ex :
  exists mz ez,
    ez = Z.min ex (fexp64 (digits mx + ex)) /\
    Zpos mz = Zpos mx * 2 ^ (ex - ez) /\
    digits mz + ez = digits mx + ex /\
    rounded sx mz ez (binary_round prec emax sx mx ex).
Proof.
  unfold binary_round.
  destruct (shl_align_spec mx ex (fexp prec emax (Zpos (digits2_pos mx) + ex)))
    as (He & Hm & Hd).
  destruct (shl_align mx ex (fexp prec emax (Zpos (digits2_pos mx) + ex)))
    as [mz ez].
  cbn [fst snd] in *. fold (digits mx) in *.
  fold (fexp64 (digits mx + ex)) in *.
  assert (Hd' : digits mz + ez = digits mx + ex) by lia.
  exists mz, ez. repeat split; try congruence.
  apply binary_round_aux_spec. rewrite Hd'. lia.
Qed.

Lemma bounded_inv m e :
  bounded prec emax m e = true ->
  e = fexp64 (digits m + e) /\ e <= 971.
Proof.
  unfold bounded, canonical_mantissa. intros H.
  apply andb_true_iff in H. destruct H as [Hc Hb].
  apply Z.eqb_eq in Hc. apply Z.leb_le in Hb.
  fold (digits m) in Hc. fold (fexp64 (digits m + e)) in Hc.
  split; [congruence | exact Hb].
Qed.

(** The product of two valid doubles is rounded from an exponent that is
    low enough. *)
Lemma mul_exponent mx ex my ey :
  bounded prec emax mx ex = true -> bounded prec emax my ey = true ->
  ex + ey <= fexp64 (digits (mx * my) + (ex + ey)).
Proof.
  intros Hx Hy. apply bounded_inv in Hx, Hy.
  destruct Hx as [Hx Hxb], Hy as [Hy Hyb].
  pose proof (digits_mul mx my). pose proof (digits_pos mx).
  pose proof (digits_pos my).
  rewrite fexp64_eq in *. lia.
Qed.

Lemma nonneg_valid x :
  valid_binary prec emax x = true -> leb zero x = true -> nonneg_or_nan x.
Proof.
  destruct x as [s | s | | s m e]; cbn; intros Hv Hle; try exact I.
  - destruct s; [discriminate | reflexivity].
  - destruct s; [discriminate | ]. split; [reflexivity | exact Hv].
Qed.

Lemma rounded_nonneg mx ex r :
  rounded false mx ex r -> nonneg_or_nan r.
Proof.
  destruct r as [s | s | | s m e]; cbn; intros H; try exact I.
  - apply H.
  - destruct H as (Hs & Hb & _). split; assumption.
Qed.

Lemma mul_nonneg x y :
  nonneg_or_nan x -> nonneg_or_nan y -> nonneg_or_nan (mul x y).
Proof.
  destruct x as [sx | sx | | sx mx ex], y as [sy | sy | | sy my ey];
    cbn [nonneg_or_nan]; intros Hx Hy; try exact I;
    unfold mul; cbn [SFmul nonneg_or_nan]; try exact I.
  - subst. reflexivity.
  - destruct Hy as [-> _]. subst. reflexivity.
  - destruct Hx as [-> _]. subst. reflexivity.
  - destruct Hx as [-> Hx], Hy as [-> Hy]. cbn [xorb].
    apply (rounded_nonneg (mx * my) (ex + ey)).
    apply binary_round_aux_spec. apply mul_exponent; assumption.
Qed.

Lemma of_Z_nonneg n : 0 <= n -> nonneg_or_nan (of_Z n).
Proof.
  intros Hn. unfold of_Z, binary_normalize.
  destruct n as [ | p | p ]; [exact I | | lia].
  destruct (binary_round_spec false p 0) as (mz & ez & _ & _ & _ & Hr).
  eapply rounded_nonneg. exact Hr.
Qed.

(** An integer below [2^1023] in magnitude converts to a finite double. *)
Lemma of_Z_finite n s : Z.abs n < 2 ^ 1023 -> of_Z n <> S754_infinity s.
Proof.
  intros Hn Heq. unfold of_Z, binary_normalize in Heq.
  assert (Hround : forall sx p, Zpos p < 2 ^ 1023 ->
            binary_round prec emax sx p 0 <> S754_infinity s).
  { intros sx p Hp Hinf.
    destruct (binary_round_spec sx p 0) as (mz & ez & _ & _ & Hd & Hr).
    rewrite Hinf in Hr. destruct Hr as [_ Hr]. rewrite Hd in Hr.
    pose proof (digits_bounds p) as [Blo _]. pose proof (digits_pos p).
    assert (digits p - 1 < 1023).
    { apply (Z.pow_lt_mono_r_iff 2); lia. }
    unfold emax, prec in Hr. rewrite fexp64_eq in Hr. lia. }
  destruct n as [ | p | p ].
  - discriminate Heq.
  - apply (Hround false p); [lia | exact Heq].
  - apply (Hround true p); [lia | exact Heq].
Qed.

(** The sum of two positive finite doubles, as [SFadd] computes it. *)
Lemma add_finite mx ex my ey :
  add (S754_finite false mx ex) (S754_finite false my ey) =
  binary_round prec emax false
    (fst (shl_align mx ex (Z.min ex ey)) + fst (shl_align my ey (Z.min ex ey)))
    (Z.min ex ey).
Proof. reflexivity. Qed.

Lemma add_nonneg x y :
  nonneg_or_nan x -> nonneg_or_nan y -> nonneg_or_nan (add x y).
Proof.
  destruct x as [sx | sx | | sx mx ex], y as [sy | sy | | sy my ey];
    cbn [nonneg_or_nan]; intros Hx Hy; try exact I;
    try (unfold add; cbn [SFadd nonneg_or_nan]; try exact I; try assumption;
         fail).
  - unfold add; cbn [SFadd]. destruct sx, sy; exact I.
  - subst. exact eq_refl.
  - destruct Hx as [-> Hx], Hy as [-> Hy]. rewrite add_finite.
    match goal with
    | |- nonneg_or_nan (binary_round _ _ _ ?m ?e) =>
        destruct (binary_round_spec false m e) as (mz & ez & _ & _ & _ & Hr)
    end.
    eapply rounded_nonneg. exact Hr.
Qed.

Lemma leb_refl_finite m e :
  leb (S754_finite false m e) (S754_finite false m e) = true.
Proof.
  unfold leb, SFleb. cbn [SFcompare].
  rewrite Z.compare_refl.
  change (Pos.compare_cont Eq m m) with (m ?= m)%positive.
  rewrite Pos.compare_refl. reflexivity.
Qed.

(** Adding a non-negative finite double to a non-negative finite double
    does not decrease it: rounding the exact sum cannot fall below an
    operand, which is itself a double. *)
Lemma add_finite_le mx ex my ey :
  bounded prec emax mx ex = true ->
  leb (S754_finite false mx ex)
      (add (S754_finite false mx ex) (S754_finite false my ey)) = true.
Proof.
  intros Hx. apply bounded_inv in Hx. destruct Hx as [Hx _].
  rewrite add_finite.
  set (ez := Z.min ex ey).
  destruct (shl_align_spec mx ex ez) as (_ & Ha & Hda).
  destruct (shl_align_spec my ey ez) as (_ & Hb & _).
  replace (Z.min ex ez) with ez in * by (unfold ez; lia).
  replace (Z.min ey ez) with ez in * by (unfold ez; lia).
  set (a := fst (shl_align mx ex ez)) in *.
  set (b := fst (shl_align my ey ez)) in *.
  destruct (binary_round_spec false (a + b) ez)
    as (mz & ez' & Hez' & Hmz & Hdz & Hr).
  set (r := binary_round prec emax false (a + b) ez) in *.
  unfold rounded in Hr. rewrite Hdz in Hr.
  set (e1 := fexp64 (digits (a + b) + ez)) in *.
  assert (Hab : digits a <= digits (a + b)) by (apply digits_le; lia).
  assert (He1 : ex <= e1).
  { unfold e1. rewrite Hx at 1. rewrite !fexp64_eq. lia. }
  assert (Hexmin : -1074 <= ex) by (rewrite Hx, fexp64_eq; lia).
  assert (Hsh : 0 <= e1 - ez') by lia.
  assert (Hp : 0 < 2 ^ (e1 - ez')) by (apply Z.pow_pos_nonneg; lia).
  assert (Hpz : 0 < 2 ^ (ez - ez')) by (apply Z.pow_pos_nonneg; lia).
  (* the truncated mantissa of the sum *)
  assert (Hmxz : Zpos mx * 2 ^ (ex - ez') <= Zpos mz).
  { rewrite Hmz, Pos2Z.inj_add, Ha.
    replace (ex - ez') with ((ex - ez) + (ez - ez')) by lia.
    rewrite Z.pow_add_r by (unfold ez; lia).
    assert (0 < 2 ^ (ex - ez)) by (apply Z.pow_pos_nonneg; unfold ez; lia).
    nia. }
  assert (Hsame : e1 = ex -> Zpos mx <= Zpos mz / 2 ^ (e1 - ez')).
  { intros ->. apply Z.div_le_lower_bound; lia. }
  assert (Hone : 1 <= Zpos mz / 2 ^ (e1 - ez')).
  { destruct (Z.eq_dec e1 ex) as [He | He]; [specialize (Hsame He); lia | ].
    apply Z.div_le_lower_bound; [lia | ].
    pose proof (digits_bounds mz) as [Blo _].
    apply Z.le_trans with (2 ^ (digits mz - 1)); [ | exact Blo ].
    rewrite Z.mul_1_r. apply Z.pow_le_mono_r; [lia | ].
    unfold e1 in *. rewrite fexp64_eq in *. lia. }
  destruct r as [s | s | | s m e].
  - destruct Hr as [_ Hr]. lia.
  - destruct Hr as [-> _]. reflexivity.
  - contradiction.
  - destruct Hr as (-> & _ & Hle & Hm).
    unfold leb, SFleb. cbn [SFcompare].
    destruct (Z.compare_spec ex e) as [He | He | He]; [ | reflexivity | lia ].
    subst e. assert (He : ex = e1) by lia.
    specialize (Hm He). specialize (Hsame (eq_sym He)).
    change (Pos.compare_cont Eq mx m) with (mx ?= m)%positive.
    destruct (Pos.compare_spec mx m) as [ | | Hgt]; try reflexivity. lia.
Qed.

Lemma add_le x y :
  nonneg_or_nan x -> nonneg_or_nan y -> is_nan (add x y) = false ->
  leb x (add x y) = true.
Proof.
  destruct x as [sx | sx | | sx mx ex], y as [sy | sy | | sy my ey];
    cbn [nonneg_or_nan]; intros Hx Hy Hnan;
    try (cbn in Hnan; discriminate Hnan).
  - destruct sx, sy; reflexivity.
  - subst. reflexivity.
  - destruct Hy as [-> _]. reflexivity.
  - subst. reflexivity.
  - subst. reflexivity.
  - subst. reflexivity.
  - destruct Hx as [-> _]. apply leb_refl_finite.
  - destruct Hx as [-> _]. subst. reflexivity.
  - destruct Hx as [-> Hx], Hy as [-> _]. apply add_finite_le. exact Hx.
Qed.

Lemma add_not_nan x y :
  is_nan (add x y) = false -> is_nan x = false /\ is_nan y = false.
Proof.
  destruct x, y; cbn; intros H; split; try reflexivity; discriminate H.
Qed.

Lemma leb_trans x y z :
  nonneg_or_nan x -> nonneg_or_nan y -> nonneg_or_nan z ->
  leb x y = true -> leb y z = true -> leb x z = true.
Proof.
  unfold leb, SFleb.
  destruct x as [sx | sx | | sx mx ex], y as [sy | sy | | sy my ey],
    z as [sz | sz | | sz mz ez];
    cbn [nonneg_or_nan SFcompare]; intros Hx Hy Hz Hxy Hyz;
    try reflexivity; try discriminate;
    repeat match goal with
           | H : _ /\ _ |- _ => destruct H as [? _]
           end; subst; try reflexivity; try discriminate.
  change (Pos.compare_cont Eq mx my) with (mx ?= my)%positive in Hxy.
  change (Pos.compare_cont Eq my mz) with (my ?= mz)%positive in Hyz.
  change (Pos.compare_cont Eq mx mz) with (mx ?= mz)%positive.
  destruct (Z.compare_spec ex ey), (Z.compare_spec ey ez),
    (Z.compare_spec ex ez); try reflexivity; try discriminate; try lia.
  destruct (Pos.compare_spec mx my), (Pos.compare_spec my mz),
    (Pos.compare_spec mx mz); try reflexivity; try discriminate; lia.
Qed.

Create HintDb float_nonneg.

#[global] Hint Resolve mul_nonneg add_nonneg : float_nonneg.

End Float64Facts.

(** ** The claims *)

(** *** The concrete scenario *)

(** C1: on the payload of the concrete scenario, with the pricing of the
    source, [get_results] returns an estimate whose seven line amounts
    are 850.00, 605.00, 340.00, 36.00, 219.72, 205.07 and 0.00, with
    subtotal 1831.00 and total 2255.79. *)
Theorem C1_concrete_scenario (rd : Py.reader) :
  exists r,
    get_results rd scenario = Ok r /\
    map amount (line_items r) =
      [cents 85000; cents 60500; cents 34000; cents 3600;
       cents 21972; cents 20507; cents 0] /\
    subtotal (totals r) = cents 183100 /\
    total (totals r) = cents 225579.
Proof.
  eexists. split; [vm_compute; reflexivity | ].
  repeat split; vm_compute; reflexivity.
Qed.

(** *** The labor bump *)

Lemma any_two_stories_spec (d : list (string * value)) :
  Forall (fun kv => integer_or_null (snd kv)) d ->
  (Py.any two_stories (map snd d) = Ok true /\ some_two_stories d) \/
  (Py.any two_stories (map snd d) = Ok false /\ ~ some_two_stories d).
Proof.
  induction 1 as [ | [k v] d Hv _ IH].
  - right. split; [reflexivity | ]. intros (k & n & [] & _).
  - assert (Hstep :
        (two_stories v = Ok true /\ exists n, v = VInt n /\ 2 <= n) \/
        (two_stories v = Ok false /\ forall n, v = VInt n -> n < 2)).
    { destruct v as [ | | n | | | | ]; simpl in Hv; try contradiction.
      - right. split; [reflexivity | discriminate].
      - unfold two_stories, Py.or_. simpl.
        destruct (n =? 0) eqn:E0; simpl.
        + right. split; [reflexivity | ].
          intros n' Hn. injection Hn as <-. lia.
        + destruct (2 <=? n) eqn:E2.
          * left. split; [reflexivity | ]. exists n. split; [reflexivity | lia].
          * right. split; [reflexivity | ].
            intros n' Hn. injection Hn as <-. lia. }
    cbn [map snd Py.any].
    destruct Hstep as [(-> & n & -> & Hn) | (-> & Hlt)]; cbn [bind].
    + left. split; [reflexivity | ].
      exists k, n. split; [left; reflexivity | exact Hn].
    + destruct IH as [(-> & k' & n & Hin & Hn) | (-> & Hno)].
      * left. split; [reflexivity | ].
        exists k', n. split; [right; exact Hin | exact Hn].
      * right. split; [reflexivity | ].
        intros (k' & n & [Heq | Hin] & Hn).
        -- injection Heq as _ ->. specialize (Hlt n eq_refl). lia.
        -- apply Hno. exists k', n. split; assumption.
Qed.





(** *** The tax base *)

Lemma estimate_sales_tax rd p data r :
  estimate rd p data = Ok r ->
  exists q ds_amt miters_amt,
    quantities rd (inputs r) = Ok q /\
    Py.int_mul_float (ds q) (downspout_each p) = Ok ds_amt /\
    Py.int_mul_float (miters q) (miter_each p) = Ok miters_amt /\
    sales_tax_line r =
      [ Float64.round
          (Float64.mul
             (Float64.add (Float64.mul (eave_ft q) (price_per_ft p))
                (Float64.add ds_amt miters_amt))
             (sales_tax_pct p)) 2 ].
Proof.
  unfold estimate. intros H. bind_inv H.
  apply price_inv in H. destruct H as (pe & q & a & ls & Hu & Hl & ->).
  apply unrounded_inv in Hu. destruct Hu as (Hb & Hq & Ha).
  apply bump_story_inv in Hb. destruct Hb as (b & _ & ->).
  apply amounts_inv in Ha.
  destruct Ha as (ds_amt & miters_amt & Hda & Hma & Hmat & _ & Hacc & Hrest).
  destruct Hrest as (_ & _ & _ & _ & Htax & _).
  exists q, ds_amt, miters_amt. cbn [inputs].
  repeat split; try assumption.
  unfold lines in Hl. bind_inv Hl. bind_inv Hl. ok_inv Hl.
  unfold sales_tax_line. cbn [line_items skipn map plain_line amount].
  rewrite Htax, Hmat, Hacc. reflexivity.
Qed.

Lemma quantities_ext rd t t' :
  eave_linear_ft t = eave_linear_ft t' ->
  downspouts t = downspouts t' ->
  miters_inside t = miters_inside t' ->
  miters_outside t = miters_outside t' ->
  quantities rd t = quantities rd t'.
Proof.
  unfold quantities. intros -> -> -> ->. reflexivity.
Qed.

(** C3: take two runs, on payloads whose extracted eave length, downspout
    count and miter counts are equal, under pricings that agree on the
    materials and accessory rates and on the sales tax rate.  Their sales
    tax amounts are equal, whatever the labor rate, the pitch and story
    multipliers and the stories of either run: the amount is
    (materials + accessories) * sales_tax_pct, and labor is no part of
    it. *)
Theorem C3_tax_base_excludes_labor (rd : Py.reader) (p p' : PricingConfig)
    (data data' : value) (r r' : EstimateResult) :
  estimate rd p data = Ok r ->
  estimate rd p' data' = Ok r' ->
  eave_linear_ft (inputs r) = eave_linear_ft (inputs r') ->
  downspouts (inputs r) = downspouts (inputs r') ->
  miters_inside (inputs r) = miters_inside (inputs r') ->
  miters_outside (inputs r) = miters_outside (inputs r') ->
  price_per_ft p = price_per_ft p' ->
  downspout_each p = downspout_each p' ->
  miter_each p = miter_each p' ->
  sales_tax_pct p = sales_tax_pct p' ->
  extract data = Ok (inputs r) /\
  extract data' = Ok (inputs r') /\
  sales_tax_line r = sales_tax_line r' /\
  exists q ds_amt miters_amt,
    quantities rd (inputs r) = Ok q /\
    Py.int_mul_float (ds q) (downspout_each p) = Ok ds_amt /\
    Py.int_mul_float (miters q) (miter_each p) = Ok miters_amt /\
    sales_tax_line r =
      [ Float64.round
          (Float64.mul
             (Float64.add (Float64.mul (eave_ft q) (price_per_ft p))
                (Float64.add ds_amt miters_amt))
             (sales_tax_pct p)) 2 ].
Proof.
  intros H H' He Hd Hin Hout Hprice Hds Hmit Htax.
  split; [exact (estimate_inputs _ _ _ _ H) | ].
  split; [exact (estimate_inputs _ _ _ _ H') | ].
  apply estimate_sales_tax in H.
  destruct H as (q & da & ma & Hq & Hda & Hma & Hl).
  apply estimate_sales_tax in H'.
  destruct H' as (q' & da' & ma' & Hq' & Hda' & Hma' & Hl').
  rewrite <- (quantities_ext rd _ _ He Hd Hin Hout), Hq in Hq'.
  injection Hq' as <-.
  rewrite <- Hds, Hda in Hda'. injection Hda' as <-.
  rewrite <- Hmit, Hma in Hma'. injection Hma' as <-.
  rewrite <- Hprice, <- Htax in Hl'.
  split; [congruence | ].
  exists q, da, ma. repeat split; assumption.
Qed.

Lemma C3_tax_base_excludes_labor_witness :
  exists r r',
    estimate Py.no_text (taxed_pricing (cents 500)) scenario = Ok r /\
    estimate Py.no_text (taxed_pricing (cents 950)) single_story = Ok r' /\
    map amount (firstn 2 (skipn 1 (line_items r))) <>
      map amount (firstn 2 (skipn 1 (line_items r'))) /\
    sales_tax_line r = sales_tax_line r' /\
    sales_tax_line r = [cents 8582].
Proof.
  destruct (estimate Py.no_text (taxed_pricing (cents 500)) scenario)
    as [r | e] eqn:E; [ | vm_compute in E; discriminate E ].
  destruct (estimate Py.no_text (taxed_pricing (cents 950)) single_story)
    as [r' | e'] eqn:E'; [ | vm_compute in E'; discriminate E' ].
  exists r, r'. split; [reflexivity | ]. split; [reflexivity | ].
  pose proof (C3_tax_base_excludes_labor Py.no_text _ _ _ _ r r' E E') as H.
  vm_compute in E. injection E as <-.
  vm_compute in E'. injection E' as <-.
  destruct H as (_ & _ & Heq & _); try reflexivity.
  split; [vm_compute; discriminate | ].
  split; [exact Heq | vm_compute; reflexivity].
Defined.

(** *** Null is absent *)

(** What [o.get(k)] returns for the lookup [o] of [k]. *)
Lemma get_lookup (d : list (string * value)) (k : string) :
  Py.get (VDict d) k =
    Ok (match Py.lookup d k with Some v => v | None => VNone end).
Proof. reflexivity. Qed.

Lemma or_empty_dict_object (d : list (string * value)) :
  Py.or_ (VDict d) empty_dict = VDict d.
Proof. destruct d; reflexivity. Qed.

Lemma alike_at_refl steps v : alike_at steps v v.
Proof. left. reflexivity. Qed.

(** Reading a key at which two objects are alike gives values related as
    the step says: null for the absent key on either side. *)
Lemma alike_at_get steps (same : value -> value -> Prop) (k : string)
    (v v' : value) :
  alike_at steps v v' ->
  In (k, same) steps ->
  (forall x, same x x) ->
  match Py.get (Py.or_ v empty_dict) k, Py.get (Py.or_ v' empty_dict) k with
  | Ok x, Ok x' => same x x'
  | Raise e, Raise e' => e = e'
  | _, _ => False
  end.
Proof.
  intros [<- | (d & d' & -> & -> & Hall)] Hin Hrefl.
  - destruct (Py.get (Py.or_ v empty_dict) k); [apply Hrefl | reflexivity].
  - rewrite !or_empty_dict_object, !get_lookup.
    rewrite Forall_forall in Hall. specialize (Hall _ Hin).
    cbn [fst snd] in Hall.
    destruct (Py.lookup d k) as [x | ], (Py.lookup d' k) as [x' | ];
      cbn [null_or_absent] in Hall; subst; auto.
Qed.

Lemma alike_at_get_eq steps (k : string) (v v' : value) :
  alike_at steps v v' ->
  In (k, eq) steps ->
  Py.get (Py.or_ v empty_dict) k = Py.get (Py.or_ v' empty_dict) k.
Proof.
  intros Hv Hin.
  pose proof (alike_at_get steps eq k v v' Hv Hin (@eq_refl value)) as H.
  destruct (Py.get (Py.or_ v empty_dict) k),
    (Py.get (Py.or_ v' empty_dict) k); cbv beta iota in H;
    try contradiction; rewrite H; reflexivity.
Qed.

Lemma gutter_alike (data data' : value) :
  null_for_absent data data' ->
  match gutter data, gutter data' with
  | Ok g, Ok g' =>
      exists r r',
        alike_at report_steps r r' /\
        g = Py.or_ r empty_dict /\ g' = Py.or_ r' empty_dict
  | Raise e, Raise e' => e = e'
  | _, _ => False
  end.
Proof.
  intros [<- | (d & d' & -> & -> & Hall)].
  - destruct (gutter data) as [g | e] eqn:E; [ | reflexivity ].
    exists g, g. split; [apply alike_at_refl | ].
    assert (Hg : Py.or_ g empty_dict = g).
    { unfold gutter in E. destruct (Py.get_default data "gutterReport"
                                      empty_dict) as [x | ]; cbn [bind] in E;
        [ | discriminate E ].
      injection E as <-. unfold Py.or_.
      destruct (Py.truthy x) eqn:Ex; [rewrite Ex; reflexivity | reflexivity]. }
    rewrite Hg. split; reflexivity.
  - inversion Hall as [ | s rest Hs _ ]; subst. cbn [fst snd] in Hs.
    unfold gutter, Py.get_default. cbn [bind].
    destruct (Py.lookup d "gutterReport") as [r | ],
      (Py.lookup d' "gutterReport") as [r' | ]; cbn [null_or_absent] in Hs.
    + exists r, r'. repeat split. exact Hs.
    + subst r. exists VNone, VNone. repeat split. apply alike_at_refl.
    + subst r'. exists VNone, VNone. repeat split. apply alike_at_refl.
    + exists VNone, VNone. repeat split. apply alike_at_refl.
Qed.

(** C4: the payloads [{"gutterReport": null}], [{}] and
    [{"gutterReport": {}}] all extract to the same all-default record:
    eave length [0.0], counts [0], no stories, no asset URL.  And at
    every step of the traversal null is the same as an absent key: two
    payloads that differ at most in that, under [gutterReport], under one
    of the five keys read in it, under [inside90] or [outside90] of
    [miterCount] or under [pdfUrl] of [assets], one holds null where the
    other has no key, extract to the same record, or raise the same
    exception. *)
Theorem C4_null_is_absent :
  (extract (VDict [("gutterReport", VNone)]) = Ok default_record /\
   extract (VDict []) = Ok default_record /\
   extract (VDict [("gutterReport", VDict [])]) = Ok default_record) /\
  (forall data data',
     null_for_absent data data' -> extract data = extract data').
Proof.
  split; [repeat split; reflexivity | ].
  intros data data' H. apply gutter_alike in H. unfold extract.
  destruct (gutter data) as [g | e], (gutter data') as [g' | e'];
    cbv beta iota in H; try contradiction; [ | rewrite H; reflexivity ].
  destruct H as (r & r' & Hr & -> & ->). cbn [bind].
  rewrite (alike_at_get_eq report_steps "totalEaveLengthFt" r r' Hr)
    by (cbn; tauto).
  destruct (Py.get (Py.or_ r' empty_dict) "totalEaveLengthFt")
    as [eave | ]; [cbn [bind] | reflexivity].
  rewrite (alike_at_get_eq report_steps "estimatedDownspouts" r r' Hr)
    by (cbn; tauto).
  destruct (Py.get (Py.or_ r' empty_dict) "estimatedDownspouts")
    as [n_ds | ]; [cbn [bind] | reflexivity].
  pose proof (alike_at_get report_steps (alike_at miter_steps) "miterCount"
                r r' Hr ltac:(cbn; tauto) (alike_at_refl miter_steps))
    as Hmc.
  destruct (Py.get (Py.or_ r empty_dict) "miterCount") as [mc | e],
    (Py.get (Py.or_ r' empty_dict) "miterCount") as [mc' | e'];
    cbv beta iota in Hmc; try contradiction;
    [cbn [bind] | rewrite Hmc; reflexivity].
  rewrite (alike_at_get_eq miter_steps "inside90" mc mc' Hmc)
    by (cbn; tauto).
  destruct (Py.get (Py.or_ mc' empty_dict) "inside90")
    as [m_in | ]; [cbn [bind] | reflexivity].
  rewrite (alike_at_get_eq miter_steps "outside90" mc mc' Hmc)
    by (cbn; tauto).
  destruct (Py.get (Py.or_ mc' empty_dict) "outside90")
    as [m_out | ]; [cbn [bind] | reflexivity].
  rewrite (alike_at_get_eq report_steps "storiesByDirection" r r' Hr)
    by (cbn; tauto).
  destruct (Py.get (Py.or_ r' empty_dict) "storiesByDirection")
    as [stories | ]; [cbn [bind] | reflexivity].
  pose proof (alike_at_get report_steps (alike_at asset_steps) "assets"
                r r' Hr ltac:(cbn; tauto) (alike_at_refl asset_steps))
    as Has.
  destruct (Py.get (Py.or_ r empty_dict) "assets") as [a | e],
    (Py.get (Py.or_ r' empty_dict) "assets") as [a' | e'];
    cbv beta iota in Has; try contradiction;
    [cbn [bind] | rewrite Has; reflexivity].
  rewrite (alike_at_get_eq asset_steps "pdfUrl" a a' Has) by (cbn; tauto).
  reflexivity.
Qed.

Lemma C4_null_is_absent_witness :
  extract
    (report [("totalEaveLengthFt", VNone);
             ("estimatedDownspouts", VNone);
             ("miterCount", VNone);
             ("storiesByDirection", VNone);
             ("assets", VNone)]) = extract (report []) /\
  extract
    (report [("totalEaveLengthFt", VInt 12);
             ("miterCount", VDict [("inside90", VNone); ("outside90", VInt 3)]);
             ("assets", VDict [("pdfUrl", VNone)])]) =
  extract
    (report [("totalEaveLengthFt", VInt 12);
             ("miterCount", VDict [("outside90", VInt 3)]);
             ("assets", VDict [])]).
Proof.
  split; apply (proj2 C4_null_is_absent);
    repeat first
      [ reflexivity
      | exact I
      | right; eexists _, _;
        (split; [reflexivity | split; [reflexivity | ]]);
        repeat apply Forall_cons; try apply Forall_nil; cbn ].
Defined.

(** *** Payloads of the documented shape *)

(** Every integer below [2^1023] in magnitude is in the range of a
    double. *)
Lemma in_double_range_below n : Z.abs n < 2 ^ 1023 -> in_double_range n.
Proof.
  intros Hn. unfold in_double_range.
  destruct (Float64.of_Z n) as [ | s | | ] eqn:E; try exact I.
  exact (Float64Facts.of_Z_finite n s Hn E).
Qed.

Lemma float_of_int_in_range n :
  in_double_range n -> exists x, Py.float_of_int n = Ok x.
Proof.
  unfold in_double_range, Py.float_of_int.
  destruct (Float64.of_Z n); intros H; try contradiction; eexists; reflexivity.
Qed.

Lemma int_mul_float_in_range n x :
  in_double_range n -> exists y, Py.int_mul_float n x = Ok y.
Proof.
  intros H. unfold Py.int_mul_float.
  destruct (float_of_int_in_range n H) as (y & ->). simpl. eexists; reflexivity.
Qed.

Lemma amounts_in_range p eave n_ds n_miters :
  in_double_range n_ds -> in_double_range n_miters ->
  exists a, amounts p eave n_ds n_miters = Ok a.
Proof.
  intros Hd Hm. unfold amounts.
  destruct (int_mul_float_in_range n_ds (downspout_each p) Hd) as (y & ->).
  destruct (int_mul_float_in_range n_miters (miter_each p) Hm) as (z & ->).
  simpl. eexists; reflexivity.
Qed.

Lemma lines_in_range p eave n_ds n_miters a :
  in_double_range n_ds -> in_double_range n_miters ->
  exists ls, lines p eave n_ds n_miters a = Ok ls.
Proof.
  intros Hd Hm. unfold lines.
  destruct (int_mul_float_in_range n_ds (downspout_each p) Hd) as (y & ->).
  destruct (int_mul_float_in_range n_miters (miter_each p) Hm) as (z & ->).
  simpl. eexists; reflexivity.
Qed.

Lemma optional_get (P : value -> Prop) d k :
  optional P d k ->
  exists v, Py.get (VDict d) k = Ok v /\ (v = VNone \/ P v).
Proof.
  unfold optional, Py.get, Py.get_default.
  destruct (Py.lookup d k) as [v | ]; intros H.
  - exists v. split; [reflexivity | ].
    destruct v; auto.
  - exists VNone. auto.
Qed.

(** Extraction on a payload of the documented shape: it returns, and
    every entry of the record has the type the spec gives it. *)
Lemma extract_documented_shape data :
  documented_shape data ->
  exists t,
    extract data = Ok t /\
    is_number (eave_linear_ft t) /\
    is_integer (downspouts t) /\
    is_integer (miters_inside t) /\
    is_integer (miters_outside t) /\
    object_of (Forall (fun kv => integer_or_null (snd kv)))
      (stories_by_direction t).
Proof.
  destruct data as [ | | | | | | d ]; simpl; try contradiction.
  intros Hd.
  assert (Hg : exists g, gutter (VDict d) = Ok (VDict g) /\ report_shape g).
  { unfold gutter, Py.get_default, optional in *.
    destruct (Py.lookup d "gutterReport") as [v | ]; simpl.
    - destruct v as [ | | | | | | g ]; simpl in Hd; try contradiction.
      + exists []. split; [reflexivity | ]. repeat split; exact I.
      + destruct g as [ | kv g ].
        * exists []. split; [reflexivity | exact Hd].
        * exists (kv :: g). split; [reflexivity | exact Hd].
    - exists []. split; [reflexivity | ]. repeat split; exact I. }
  destruct Hg as (g & Hg & He & Hn & Hm & Hs & Ha).
  unfold extract. rewrite Hg. cbn [bind].
  apply optional_get in He. destruct He as (eave & -> & He).
  apply optional_get in Hn. destruct Hn as (n_ds & -> & Hn).
  apply optional_get in Hm. destruct Hm as (mc & -> & Hm).
  apply optional_get in Hs. destruct Hs as (st & Hst & Hs).
  apply optional_get in Ha. destruct Ha as (assets & Hassets & Ha).
  cbn [bind].
  assert (Hmc : exists c, Py.or_ mc empty_dict = VDict c /\
                          optional is_integer c "inside90" /\
                          optional is_integer c "outside90").
  { destruct Hm as [-> | Hm].
    - exists []. repeat split; exact I.
    - destruct mc as [ | | | | | | c ]; try contradiction.
      destruct c as [ | kv c ].
      + exists []. repeat split; exact I.
      + exists (kv :: c). split; [reflexivity | exact Hm]. }
  destruct Hmc as (c & -> & Hin & Hout).
  apply optional_get in Hin. destruct Hin as (m_in & -> & Hin).
  apply optional_get in Hout. destruct Hout as (m_out & -> & Hout).
  cbn [bind]. rewrite Hst. cbn [bind]. rewrite Hassets. cbn [bind].
  assert (Hurl : exists u, Py.get (Py.or_ assets empty_dict) "pdfUrl" = Ok u).
  { destruct Ha as [-> | Ha].
    - eexists; reflexivity.
    - destruct assets as [ | | | | | | a ]; try contradiction.
      destruct a as [ | kv a ]; eexists; reflexivity. }
  destruct Hurl as (u & ->). cbn [bind].
  eexists. split; [reflexivity | ]. simpl.
  repeat split.
  - destruct He as [-> | He]; [exact I | ].
    destruct eave; try contradiction; unfold Py.or_; simpl.
    + destruct (negb (n =? 0)); exact I.
    + destruct f; exact I.
  - destruct Hn as [-> | Hn]; [exact I | ].
    destruct n_ds; try contradiction; unfold Py.or_; simpl.
    destruct (negb (n =? 0)); exact I.
  - destruct Hin as [-> | Hin]; [exact I | ].
    destruct m_in; try contradiction; unfold Py.or_; simpl.
    destruct (negb (n =? 0)); exact I.
  - destruct Hout as [-> | Hout]; [exact I | ].
    destruct m_out; try contradiction; unfold Py.or_; simpl.
    destruct (negb (n =? 0)); exact I.
  - destruct Hs as [-> | Hs]; [constructor | ].
    destruct st as [ | | | | | | s ]; try contradiction.
    destruct s as [ | kv s ]; [constructor | exact Hs].
Qed.

(** C5, as the code has it: on a payload of the documented shape whose
    integer quantities (eave length, downspout count, total miter count)
    are in the range of a double, extraction and pricing raise nothing
    and return an estimate. *)
Theorem C5_never_raises (rd : Py.reader) (data : value) :
  documented_shape data ->
  (exists t, extract data = Ok t /\ quantities_in_range t) ->
  exists r, get_results rd data = Ok r.
Proof.
  intros Hshape (t & Ht & He & Hd & Hm).
  destruct (extract_documented_shape data Hshape)
    as (t' & Ht' & Te & Td & Tin & Tout & Ts).
  rewrite Ht in Ht'. injection Ht' as <-.
  unfold get_results, estimate. rewrite Ht. simpl.
  destruct t as [eave n_ds m_in m_out stories url]. simpl in *.
  destruct n_ds as [ | | n | | | | ]; try contradiction.
  destruct m_in as [ | | a | | | | ]; try contradiction.
  destruct m_out as [ | | b | | | | ]; try contradiction.
  destruct stories as [ | | | | | | s ]; try contradiction.
  specialize (Hd n eq_refl). specialize (Hm a b eq_refl eq_refl).
  assert (Hb : exists bump, Py.any two_stories (map snd s) = Ok bump).
  { destruct (any_two_stories_spec s Ts) as [(Hb & _) | (Hb & _)];
      eexists; exact Hb. }
  destruct Hb as (bump & Hb).
  assert (Hq : exists x, Py.float_ rd eave = Ok x).
  { destruct eave; try contradiction; simpl.
    - apply float_of_int_in_range, He. reflexivity.
    - eexists; reflexivity. }
  destruct Hq as (x & Hx).
  unfold price, unrounded, bump_story, any_two_stories, quantities. simpl.
  rewrite Hb. simpl. rewrite Hx. simpl.
  match goal with
  | |- context [amounts ?p x n (a + b)] =>
      destruct (amounts_in_range p x n (a + b) Hd Hm) as (am & ->); simpl;
      destruct (lines_in_range p x n (a + b) am Hd Hm) as (ls & ->); simpl
  end.
  eexists; reflexivity.
Qed.

Lemma C5_never_raises_witness :
  exists r, get_results Py.no_text scenario = Ok r.
Proof.
  apply C5_never_raises.
  - simpl. unfold optional. simpl.
    repeat split; try exact I.
    repeat constructor.
  - eexists. split; [reflexivity | ].
    repeat split; intros;
      repeat match goal with
             | H : _ = VInt _ |- _ => cbv in H; injection H as <-
             end; vm_compute; exact I.
Defined.

(** C5 as stated fails: [{"gutterReport": {"estimatedDownspouts": 10^400}}]
    has the documented shape, and [ds * pricing["downspout_each"]] raises
    [OverflowError] on it, an int too large to convert to float. *)
Lemma C5_counterexample :
  documented_shape huge_count /\
  forall rd, get_results rd huge_count = Raise OverflowError.
Proof.
  split.
  - simpl. unfold optional. simpl. repeat split; exact I.
  - intros rd. vm_compute. reflexivity.
Qed.

(** *** Stories by direction are passed through *)

(** C6, as the code has it: extraction checks nothing about the stories;
    [stories_by_direction] is the payload's [storiesByDirection] itself
    when that is truthy and the empty mapping otherwise.  So its values
    are integers at least 1 whenever the payload's mapping is absent,
    null, or has only such values. *)
Theorem C6_stories_passed_through (data : value) (t : MeasurementRecord) :
  extract data = Ok t ->
  exists s,
    payload_stories data = Ok s /\
    stories_by_direction t = Py.or_ s empty_dict /\
    (s = VNone \/ stories_at_least_one s ->
     stories_at_least_one (stories_by_direction t)).
Proof.
  intros H. apply extract_inv in H.
  destruct H as (g & mc & assets & Hg & _ & _ & H).
  destruct H as (eave & n_ds & m_in & m_out & stories & url & H).
  destruct H as (_ & _ & _ & _ & Hs & _ & ->).
  exists stories. unfold payload_stories. rewrite Hg. simpl.
  split; [exact Hs | ]. split; [reflexivity | ].
  intros [-> | (d & -> & Hd)].
  - exists []. split; [reflexivity | constructor].
  - destruct d as [ | kv d].
    + exists []. split; [reflexivity | constructor].
    + exists (kv :: d). split; [reflexivity | exact Hd].
Qed.

Lemma C6_stories_passed_through_witness :
  extract scenario =
    Ok {| eave_linear_ft := VInt 100; downspouts := VInt 4;
          miters_inside := VInt 2; miters_outside := VInt 1;
          stories_by_direction := VDict [("N", VInt 1); ("S", VInt 2)];
          pdf_url := VNone |} /\
  stories_at_least_one (VDict [("N", VInt 1); ("S", VInt 2)]).
Proof.
  split; [reflexivity | ].
  destruct (C6_stories_passed_through scenario _ eq_refl)
    as (s & Hs & _ & Himp).
  vm_compute in Hs. injection Hs as <-.
  apply Himp. right. eexists. split; [reflexivity | ].
  repeat constructor; eexists; (split; [reflexivity | lia]).
Defined.

(** C6 as stated fails: the payload
    [{"gutterReport": {"storiesByDirection": {"N": 0}}}] extracts to a
    record whose stories mapping holds the value 0. *)
Lemma C6_counterexample :
  exists t,
    extract zero_story = Ok t /\
    ~ stories_at_least_one (stories_by_direction t).
Proof.
  eexists. split; [reflexivity | ].
  simpl. intros (d & Hd & Hall).
  injection Hd as <-.
  inversion Hall as [ | kv d' (n & Hn & Hge) _ ]; subst.
  simpl in Hn. injection Hn as <-. lia.
Qed.

(** *** Subtotal, pre-profit and total in order *)

Lemma non_negative_nonneg x : non_negative x -> Float64.nonneg_or_nan x.
Proof. intros [Hv Hle]. apply Float64Facts.nonneg_valid; assumption. Qed.

Lemma int_mul_float_nonneg n x y :
  0 <= n -> Float64.nonneg_or_nan x -> Py.int_mul_float n x = Ok y ->
  Float64.nonneg_or_nan y.
Proof.
  intros Hn Hx H. unfold Py.int_mul_float in H. bind_inv H. ok_inv H.
  apply Float64Facts.mul_nonneg; [ | exact Hx ].
  unfold Py.float_of_int in E. pose proof (Float64Facts.of_Z_nonneg n Hn) as Hz.
  destruct (Float64.of_Z n); try discriminate E; injection E as <-; exact Hz.
Qed.

(** C7, as binary64 arithmetic has it: for non-negative quantities and
    non-negative rates, whenever the total is a number (not NaN, which it
    becomes when an amount overflows to infinity and meets a zero rate),
    the unrounded values satisfy subtotal <= pre_profit <= total. *)
Theorem C7_totals_ordered (p : PricingConfig) (eave : float)
    (n_ds m_in m_out : Z) (a : Amounts) :
  non_negative eave -> 0 <= n_ds -> 0 <= m_in -> 0 <= m_out ->
  non_negative_rates p ->
  amounts p eave n_ds (m_in + m_out) = Ok a ->
  Float64.is_nan (a_total a) = false ->
  Float64.leb (a_subtotal a) (pre_profit a) = true /\
  Float64.leb (pre_profit a) (a_total a) = true.
Proof.
  intros He Hds Hin Hout Hp Ha Hnan.
  destruct Hp as (Pp & Pl & Pd & Pm & Ppitch & Pstory & Po & Ppr & Pt).
  apply non_negative_nonneg in He, Pp, Pl, Pd, Pm, Ppitch, Pstory, Po, Ppr, Pt.
  apply amounts_inv in Ha.
  destruct Ha as (ds_amt & miters_amt & Hda & Hma & Hmat & Hlab & Hacc & Hrest).
  destruct Hrest as (Hsub & Hov & Hpre & Hprof & Htax & Htot).
  apply int_mul_float_nonneg in Hda; [ | assumption | assumption ].
  apply int_mul_float_nonneg in Hma; [ | lia | assumption ].
  assert (Nmat : Float64.nonneg_or_nan (base_mat a))
    by (rewrite Hmat; auto with float_nonneg).
  assert (Nlab : Float64.nonneg_or_nan (base_lab a))
    by (rewrite Hlab; auto with float_nonneg).
  assert (Nacc : Float64.nonneg_or_nan (accessories a))
    by (rewrite Hacc; auto with float_nonneg).
  assert (Nsub : Float64.nonneg_or_nan (a_subtotal a))
    by (rewrite Hsub; auto with float_nonneg).
  assert (Nov : Float64.nonneg_or_nan (overhead a))
    by (rewrite Hov; auto with float_nonneg).
  assert (Npre : Float64.nonneg_or_nan (pre_profit a))
    by (rewrite Hpre; auto with float_nonneg).
  assert (Nprof : Float64.nonneg_or_nan (profit a))
    by (rewrite Hprof; auto with float_nonneg).
  assert (Ntax : Float64.nonneg_or_nan (sales_tax a))
    by (rewrite Htax; auto with float_nonneg).
  assert (Nsum : Float64.nonneg_or_nan (Float64.add (pre_profit a) (profit a)))
    by auto with float_nonneg.
  assert (Ntot : Float64.nonneg_or_nan (a_total a))
    by (rewrite Htot; auto with float_nonneg).
  rewrite Htot in Hnan.
  destruct (Float64Facts.add_not_nan _ _ Hnan) as [Hsum _].
  destruct (Float64Facts.add_not_nan _ _ Hsum) as [Hprenan _].
  split.
  - rewrite Hpre. apply Float64Facts.add_le; try assumption.
    rewrite <- Hpre. exact Hprenan.
  - apply Float64Facts.leb_trans with (Float64.add (pre_profit a) (profit a));
      try assumption.
    + apply Float64Facts.add_le; assumption.
    + rewrite Htot. apply Float64Facts.add_le; assumption.
Qed.

Lemma C7_totals_ordered_witness :
  exists a,
    amounts pricing (Float64.of_Z 100) 4 (2 + 1) = Ok a /\
    Float64.leb (a_subtotal a) (pre_profit a) = true /\
    Float64.leb (pre_profit a) (a_total a) = true.
Proof.
  destruct (amounts pricing (Float64.of_Z 100) 4 (2 + 1)) as [a | e] eqn:E;
    [ | vm_compute in E; discriminate E ].
  exists a. split; [reflexivity | ].
  apply (C7_totals_ordered pricing (Float64.of_Z 100) 4 2 1 a);
    try lia; try exact E.
  - split; vm_compute; reflexivity.
  - repeat split; vm_compute; reflexivity.
  - vm_compute in E. injection E as <-. vm_compute. reflexivity.
Defined.

(** C7 as stated fails: with the pricing of the source and an eave
    length of 1e308 feet, the materials amount overflows to infinity, the
    sales tax, infinity times 0.0, is NaN, and so is the total:
    [pre_profit <= total] is false. *)
Lemma C7_counterexample :
  non_negative huge_eave /\
  non_negative_rates pricing /\
  exists a,
    amounts pricing huge_eave 0 (0 + 0) = Ok a /\
    pre_profit a = S754_infinity false /\
    a_total a = S754_nan /\
    Float64.leb (pre_profit a) (a_total a) = false.
Proof.
  split; [split; vm_compute; reflexivity | ].
  split; [repeat split; vm_compute; reflexivity | ].
  eexists. split; [vm_compute; reflexivity | ].
  repeat split; vm_compute; reflexivity.
Qed.

(** *** The all-zero record *)

(** C8: pricing an all-zero record gives seven line items whose amounts
    are all 0.00, and subtotal and total 0.00. *)
Theorem C8_all_zero (rd : Py.reader) (int_eave : bool) (url : value) :
  exists r,
    price rd pricing (zero_record int_eave url) = Ok r /\
    map amount (line_items r) = repeat Float64.zero 7 /\
    subtotal (totals r) = Float64.zero /\
    total (totals r) = Float64.zero.
Proof.
  destruct int_eave; eexists; (split; [vm_compute; reflexivity | ]);
    repeat split; vm_compute; reflexivity.
Qed.

(** *** The line items *)

(** C9: every estimate returned has exactly seven line items, labelled in
    this order: materials, labor, downspouts, miters, overhead, profit,
    sales tax, whatever their amounts; the downspout and miter labels
    carry the integer counts the run computed. *)
Theorem C9_line_item_order (rd : Py.reader) (p0 : PricingConfig)
    (data : value) (r : EstimateResult) :
  estimate rd p0 data = Ok r ->
  exists n_ds m_in m_out,
    extract data = Ok (inputs r) /\
    Py.int_ rd (downspouts (inputs r)) = Ok n_ds /\
    Py.int_ rd (miters_inside (inputs r)) = Ok m_in /\
    Py.int_ rd (miters_outside (inputs r)) = Ok m_out /\
    map label (line_items r) =
      [ "Gutter materials"; "Labor";
        "Downspouts (" ++ Py.str_of_int n_ds ++ ")";
        "Miters (" ++ Py.str_of_int (m_in + m_out) ++ ")";
        "Overhead"; "Profit"; "Sales tax" ]%string.
Proof.
  intros H. pose proof (estimate_inputs _ _ _ _ H) as Hin.
  unfold estimate in H. bind_inv H.
  apply price_inv in H. destruct H as (p & q & a & ls & Hu & Hl & ->).
  apply unrounded_inv in Hu. destruct Hu as (_ & Hq & _).
  apply quantities_inv in Hq.
  destruct Hq as (m_in & m_out & _ & Hds & Hmin & Hmout & Hm).
  exists (ds q), m_in, m_out. cbn [inputs line_items] in *.
  rewrite <- Hm. repeat split; try assumption.
  eapply lines_labels; eassumption.
Qed.

Lemma C9_line_item_order_witness :
  exists r,
    get_results Py.no_text scenario = Ok r /\
    map label (line_items r) =
      [ "Gutter materials"; "Labor"; "Downspouts (4)"; "Miters (3)";
        "Overhead"; "Profit"; "Sales tax" ]%string.
Proof.
  destruct (get_results Py.no_text scenario) as [r | e] eqn:E;
    [ | vm_compute in E; discriminate E ].
  exists r. split; [reflexivity | ].
  destruct (C9_line_item_order Py.no_text pricing scenario r E)
    as (n_ds & m_in & m_out & _ & Hds & Hin & Hout & Hl).
  assert (Hr : inputs r = {| eave_linear_ft := VInt 100; downspouts := VInt 4;
                             miters_inside := VInt 2; miters_outside := VInt 1;
                             stories_by_direction :=
                               VDict [("N", VInt 1); ("S", VInt 2)];
                             pdf_url := VNone |}).
  { vm_compute in E. injection E as <-. reflexivity. }
  rewrite Hr in Hds, Hin, Hout. simpl in Hds, Hin, Hout.
  injection Hds as <-. injection Hin as <-. injection Hout as <-.
  exact Hl.
Defined.

(** *** The asset URL is only echoed *)

Lemma lookup_same_but_other k R d d' k' :
  same_but k R d d' -> String.eqb k' k = false ->
  Py.lookup d k' = Py.lookup d' k'.
Proof.
  intros H Hk. induction H as [ | [a v] [a' v'] d d' (Ha & Hv) _ IH]; simpl.
  - reflexivity.
  - simpl in Ha, Hv. subst a'.
    destruct (String.eqb a k') eqn:Ek.
    + apply String.eqb_eq in Ek. subst a. rewrite Hk in Hv. congruence.
    + exact IH.
Qed.

Lemma lookup_same_but_key k R d d' :
  same_but k R d d' ->
  (Py.lookup d k = None /\ Py.lookup d' k = None) \/
  (exists v v', Py.lookup d k = Some v /\ Py.lookup d' k = Some v' /\ R v v').
Proof.
  intros H. induction H as [ | [a v] [a' v'] d d' (Ha & Hv) _ IH]; simpl.
  - left. split; reflexivity.
  - simpl in Ha, Hv. subst a'.
    destruct (String.eqb a k).
    + right. exists v, v'. repeat split. exact Hv.
    + exact IH.
Qed.

Lemma or_dict_same_but k R d d' :
  same_but k R d d' ->
  exists e e',
    Py.or_ (VDict d) empty_dict = VDict e /\
    Py.or_ (VDict d') empty_dict = VDict e' /\
    same_but k R e e'.
Proof.
  intros H. destruct H as [ | i i' d d' Hi Hd].
  - exists [], []. repeat split; constructor.
  - exists (i :: d), (i' :: d'). repeat split. constructor; assumption.
Qed.

Lemma gutter_differ data data' :
  differ_in_pdf_url data data' ->
  exists g g',
    gutter data = Ok (VDict g) /\ gutter data' = Ok (VDict g') /\
    same_but "assets" (dicts (same_but "pdfUrl" (fun _ _ => True))) g g'.
Proof.
  unfold differ_in_pdf_url, dicts at 1.
  destruct data as [ | | | | | | d]; try contradiction.
  destruct data' as [ | | | | | | d']; try contradiction.
  intros H. unfold gutter, Py.get_default.
  destruct (lookup_same_but_key _ _ _ _ H)
    as [(-> & ->) | (v & v' & -> & -> & Hv)].
  - exists [], []. repeat split; constructor.
  - cbn [bind]. unfold dicts at 1 in Hv.
    destruct v as [ | | | | | | g]; try contradiction.
    destruct v' as [ | | | | | | g']; try contradiction.
    destruct (or_dict_same_but _ _ _ _ Hv) as (e & e' & -> & -> & He).
    exists e, e'. repeat split. exact He.
Qed.

Lemma get_same_but_other k R g g' k' :
  same_but k R g g' -> String.eqb k' k = false ->
  Py.get (VDict g') k' = Py.get (VDict g) k'.
Proof.
  intros H Hk. unfold Py.get, Py.get_default.
  rewrite (lookup_same_but_other _ _ _ _ _ H Hk). reflexivity.
Qed.

Lemma assets_differ g g' :
  same_but "assets" (dicts (same_but "pdfUrl" (fun _ _ => True))) g g' ->
  exists a a' u u',
    Py.get (VDict g) "assets" = Ok a /\
    Py.get (VDict g') "assets" = Ok a' /\
    Py.get (Py.or_ a empty_dict) "pdfUrl" = Ok u /\
    Py.get (Py.or_ a' empty_dict) "pdfUrl" = Ok u'.
Proof.
  intros H. unfold Py.get at 1 2, Py.get_default.
  destruct (lookup_same_but_key _ _ _ _ H)
    as [(-> & ->) | (v & v' & -> & -> & Hv)].
  - eexists _, _, _, _. repeat split; reflexivity.
  - unfold dicts in Hv.
    destruct v as [ | | | | | | a]; try contradiction.
    destruct v' as [ | | | | | | a']; try contradiction.
    destruct (or_dict_same_but _ _ _ _ Hv) as (e & e' & He & He' & _).
    eexists _, _, _, _. split; [reflexivity | ]. split; [reflexivity | ].
    rewrite He, He'. split; reflexivity.
Qed.

Lemma extract_differ data data' :
  differ_in_pdf_url data data' ->
  map_result (fun t => with_pdf_url t VNone) (extract data) =
  map_result (fun t => with_pdf_url t VNone) (extract data').
Proof.
  intros H. destruct (gutter_differ _ _ H) as (g & g' & Hg & Hg' & Hs).
  unfold extract. rewrite Hg, Hg'. cbn [bind].
  rewrite !(get_same_but_other _ _ _ _ "totalEaveLengthFt" Hs eq_refl).
  rewrite !(get_same_but_other _ _ _ _ "estimatedDownspouts" Hs eq_refl).
  rewrite !(get_same_but_other _ _ _ _ "miterCount" Hs eq_refl).
  rewrite !(get_same_but_other _ _ _ _ "storiesByDirection" Hs eq_refl).
  destruct (assets_differ _ _ Hs) as (a & a' & u & u' & Ha & Ha' & Hu & Hu').
  rewrite Ha, Ha'.
  destruct (Py.get (VDict g) "totalEaveLengthFt"); cbn [bind map_result];
    [ | reflexivity ].
  destruct (Py.get (VDict g) "estimatedDownspouts"); cbn [bind map_result];
    [ | reflexivity ].
  destruct (Py.get (VDict g) "miterCount") as [mc | ]; cbn [bind map_result];
    [ | reflexivity ].
  destruct (Py.get (Py.or_ mc empty_dict) "inside90"); cbn [bind map_result];
    [ | reflexivity ].
  destruct (Py.get (Py.or_ mc empty_dict) "outside90"); cbn [bind map_result];
    [ | reflexivity ].
  destruct (Py.get (VDict g) "storiesByDirection"); cbn [bind map_result];
    [ | reflexivity ].
  rewrite Hu, Hu'. reflexivity.
Qed.

Lemma price_with_pdf_url rd p0 t u :
  map_result forget_pdf_url (price rd p0 (with_pdf_url t u)) =
  map_result forget_pdf_url (price rd p0 t).
Proof.
  unfold price, unrounded, bump_story, any_two_stories, quantities.
  cbn [with_pdf_url stories_by_direction eave_linear_ft downspouts
       miters_inside miters_outside].
  destruct (Py.values (stories_by_direction t)) as [vs | ];
    cbn [bind map_result]; [ | reflexivity ].
  destruct (Py.any two_stories vs) as [b | ]; cbn [bind map_result];
    [ | reflexivity ].
  destruct (Py.float_ rd (eave_linear_ft t)); cbn [bind map_result];
    [ | reflexivity ].
  destruct (Py.int_ rd (downspouts t)); cbn [bind map_result];
    [ | reflexivity ].
  destruct (Py.int_ rd (miters_inside t)); cbn [bind map_result];
    [ | reflexivity ].
  destruct (Py.int_ rd (miters_outside t)); cbn [bind map_result];
    [ | reflexivity ].
  cbn [eave_ft ds miters].
  destruct (amounts _ _ _ _) as [am | ];
    cbn [bind map_result eave_ft ds miters]; [ | reflexivity ].
  destruct (lines _ _ _ _ _); cbn [bind map_result]; reflexivity.
Qed.

(** C10: two payloads that differ only in the value of
    [gutterReport.assets.pdfUrl] run alike: both raise the same exception,
    or both return estimates with the same line items, the same totals
    and the same echoed inputs apart from [pdf_url]. *)
Theorem C10_pdf_url_only_echoed (rd : Py.reader) (p0 : PricingConfig)
    (data data' : value) :
  differ_in_pdf_url data data' ->
  map_result forget_pdf_url (estimate rd p0 data) =
  map_result forget_pdf_url (estimate rd p0 data').
Proof.
  intros H. apply extract_differ in H. unfold estimate.
  destruct (extract data) as [t | e], (extract data') as [t' | e'];
    cbn [bind map_result] in *; try discriminate H.
  - assert (Ht : with_pdf_url t VNone = with_pdf_url t' VNone) by congruence.
    rewrite <- (price_with_pdf_url rd p0 t VNone).
    rewrite <- (price_with_pdf_url rd p0 t' VNone).
    rewrite Ht. reflexivity.
  - injection H as <-. reflexivity.
Qed.

Lemma C10_pdf_url_only_echoed_witness :
  map_result forget_pdf_url
    (estimate Py.no_text pricing (with_url (VStr "https://a.example/r.pdf"))) =
  map_result forget_pdf_url
    (estimate Py.no_text pricing (with_url VNone)).
Proof.
  apply C10_pdf_url_only_echoed.
  simpl. repeat constructor.
Defined.

(** ** Further properties of the estimator *)

(** *** When extraction raises *)

Lemma or_empty_dict_spec v :
  match or_empty_dict v with
  | Some d => Py.or_ v empty_dict = VDict d
  | None => forall k, Py.get (Py.or_ v empty_dict) k = Raise AttributeError
  end.
Proof.
  unfold or_empty_dict, Py.or_.
  destruct (Py.truthy v) eqn:Ev; [ | reflexivity ].
  destruct v; try reflexivity.
Qed.

Lemma get_entry d k : Py.get (VDict d) k = Ok (entry d k).
Proof. reflexivity. Qed.

Lemma gutter_spec d :
  gutter (VDict d) = Ok (Py.or_ (entry d "gutterReport") empty_dict).
Proof.
  unfold gutter, Py.get_default, entry.
  destruct (Py.lookup d "gutterReport"); reflexivity.
Qed.

(** X1: extraction raises nothing but [AttributeError], and it returns
    exactly when the payload is an object whose [gutterReport], and in it
    [miterCount] and [assets], are each falsy or an object. *)
Theorem extract_raises_only_on_non_objects (data : value) :
  (forall e, extract data = Raise e -> e = AttributeError) /\
  ((exists t, extract data = Ok t) <->
   (exists d g,
      data = VDict d /\
      or_empty_dict (entry d "gutterReport") = Some g /\
      or_empty_dict (entry g "miterCount") <> None /\
      or_empty_dict (entry g "assets") <> None)).
Proof.
  destruct data as [ | | | | | | d ];
    try (split; [ intros e H; cbv in H; injection H as <-; reflexivity
                | split; [ intros (t & H); cbv in H; discriminate H
                         | intros (d & g & H & _); discriminate H ] ]).
  unfold extract. rewrite gutter_spec. cbn [bind].
  pose proof (or_empty_dict_spec (entry d "gutterReport")) as Hg.
  destruct (or_empty_dict (entry d "gutterReport")) as [g | ] eqn:Eg.
  - rewrite Hg. rewrite !get_entry. cbn [bind].
    pose proof (or_empty_dict_spec (entry g "miterCount")) as Hmc.
    pose proof (or_empty_dict_spec (entry g "assets")) as Ha.
    destruct (or_empty_dict (entry g "miterCount")) as [mc | ] eqn:Emc.
    + rewrite Hmc. rewrite !get_entry. cbn [bind].
      destruct (or_empty_dict (entry g "assets")) as [a | ] eqn:Ea.
      * rewrite Ha. rewrite get_entry. cbn [bind].
        split; [ intros e H; discriminate H | ].
        split; [ | intros _; eexists; reflexivity ].
        intros _. exists d, g. repeat split; congruence.
      * rewrite Ha. cbn [bind].
        split; [ intros e H; injection H as <-; reflexivity | ].
        split; [ intros (t & H); discriminate H | ].
        intros (d' & g' & Hd & Hg' & _ & Hno).
        injection Hd as <-. congruence.
    + rewrite Hmc. cbn [bind].
      split; [ intros e H; injection H as <-; reflexivity | ].
      split; [ intros (t & H); discriminate H | ].
      intros (d' & g' & Hd & Hg' & Hno & _).
      injection Hd as <-. congruence.
  - rewrite Hg. cbn [bind].
    split; [ intros e H; injection H as <-; reflexivity | ].
    split; [ intros (t & H); discriminate H | ].
    intros (d' & g' & Hd & Hg' & _).
    injection Hd as <-. congruence.
Qed.

(** *** Falsy values count as missing *)

Lemma or_kept_or v dflt : kept_or dflt v (Py.or_ v dflt).
Proof.
  unfold kept_or, Py.or_.
  destruct (Py.truthy v); [left | right]; split; reflexivity.
Qed.

Lemma get_object (v : value) (k : string) (x : value) :
  Py.get (Py.or_ v empty_dict) k = Ok x ->
  exists d, or_empty_dict v = Some d /\ x = entry d k.
Proof.
  intros H. pose proof (or_empty_dict_spec v) as Hs.
  destruct (or_empty_dict v) as [d | ].
  - rewrite Hs, get_entry in H. injection H as <-.
    exists d. split; reflexivity.
  - rewrite Hs in H. discriminate H.
Qed.

(** X2: every entry of an extracted record is tied to the payload: each
    quantity is the payload's value under its key, kept as it is, when
    that value is truthy, and the default when it is falsy (a zero,
    [false], an empty text, list or object) or null or missing; the
    asset URL is the payload's value whatever it is.  So the eave length
    is never the int [0]: it is echoed as [0.0]. *)
Theorem extract_replaces_falsy (data : value) (t : MeasurementRecord) :
  extract data = Ok t ->
  exists d g mc a,
    data = VDict d /\
    or_empty_dict (entry d "gutterReport") = Some g /\
    or_empty_dict (entry g "miterCount") = Some mc /\
    or_empty_dict (entry g "assets") = Some a /\
    kept_or (VFloat Float64.zero) (entry g "totalEaveLengthFt")
      (eave_linear_ft t) /\
    kept_or (VInt 0) (entry g "estimatedDownspouts") (downspouts t) /\
    kept_or (VInt 0) (entry mc "inside90") (miters_inside t) /\
    kept_or (VInt 0) (entry mc "outside90") (miters_outside t) /\
    kept_or empty_dict (entry g "storiesByDirection")
      (stories_by_direction t) /\
    pdf_url t = entry a "pdfUrl" /\
    eave_linear_ft t <> VInt 0.
Proof.
  intros H.
  destruct data as [ | | | | | | d ]; try (cbv in H; discriminate H).
  apply extract_inv in H.
  destruct H as (gv & mcv & av & Hg & Hmc & Ha & H).
  destruct H as (eave & n_ds & m_in & m_out & stories & url & H).
  destruct H as (He & Hd & Hin & Hout & Hs & Hu & ->).
  rewrite gutter_spec in Hg. injection Hg as <-.
  apply get_object in He, Hd, Hmc, Hs, Ha, Hin, Hout, Hu.
  destruct He as (g & Eg & ->), Hd as (g1 & Eg1 & ->),
    Hmc as (g2 & Eg2 & ->), Hs as (g3 & Eg3 & ->), Ha as (g4 & Eg4 & ->).
  rewrite Eg in Eg1, Eg2, Eg3, Eg4.
  injection Eg1 as <-. injection Eg2 as <-.
  injection Eg3 as <-. injection Eg4 as <-.
  destruct Hin as (mc & Emc & ->), Hout as (mc1 & Emc1 & ->),
    Hu as (a & Ea & ->).
  rewrite Emc in Emc1. injection Emc1 as <-.
  exists d, g, mc, a. cbn.
  repeat split; try assumption; try apply or_kept_or.
  intros H.
  destruct (or_kept_or (entry g "totalEaveLengthFt") (VFloat Float64.zero))
    as [(Ht & Hx) | (_ & Hx)]; rewrite H in Hx;
    [rewrite <- Hx in Ht | ]; discriminate.
Qed.

Lemma extract_replaces_falsy_witness :
  extract (report [("totalEaveLengthFt", VInt 0);
                   ("estimatedDownspouts", VBool false);
                   ("storiesByDirection", VList []);
                   ("assets", VDict [("pdfUrl", VInt 0)])]) =
    Ok (with_pdf_url default_record (VInt 0)) /\
  eave_linear_ft (with_pdf_url default_record (VInt 0)) <> VInt 0.
Proof.
  split; [reflexivity | ].
  destruct (extract_replaces_falsy
              (report [("totalEaveLengthFt", VInt 0);
                       ("estimatedDownspouts", VBool false);
                       ("storiesByDirection", VList []);
                       ("assets", VDict [("pdfUrl", VInt 0)])])
              (with_pdf_url default_record (VInt 0)) eq_refl)
    as (d & g & mc & a & H).
  apply H.
Defined.

(** *** The first decisive side decides the labor bump *)

Lemma any_skip (f : value -> result bool) (vs ws : list value) :
  Forall (fun v => f v = Ok false) vs ->
  Py.any f (vs ++ ws) = Py.any f ws.
Proof.
  induction 1 as [ | v vs Hv _ IH]; [reflexivity | ].
  cbn [app Py.any]. rewrite Hv. cbn [bind]. exact IH.
Qed.

(** X3: the sides are tested in the order of the payload and the test
    stops at the first side that has two stories or more, or whose count
    cannot be compared: what follows it is not looked at.  So a count
    that is not a number raises [TypeError] only when no earlier side
    already has two stories. *)
Theorem bump_decided_by_first_side (p : PricingConfig) (t : MeasurementRecord)
    (front back : list (string * value)) (k : string) (v : value) :
  stories_by_direction t = VDict (front ++ (k, v) :: back) ->
  Forall (fun kv => two_stories (snd kv) = Ok false) front ->
  (two_stories v = Ok true ->
   bump_story p t = Ok (set_story_multiplier p (Float64.literal 110 2))) /\
  (forall e, two_stories v = Raise e -> bump_story p t = Raise e).
Proof.
  intros Ht Hfront.
  assert (Hany : any_two_stories t =
                 (b <- two_stories v ;;
                  if b then Ok true else Py.any two_stories (map snd back))).
  { unfold any_two_stories. rewrite Ht. cbn [Py.values bind].
    rewrite map_app. rewrite any_skip.
    - reflexivity.
    - apply Forall_map. exact Hfront. }
  unfold bump_story. rewrite Hany.
  split; [intros -> | intros e ->]; reflexivity.
Qed.

Lemma bump_decided_by_first_side_witness :
  bump_story pricing
    (stories_record [("N", VInt 1); ("E", VInt 2); ("S", VStr "two")]) =
    Ok (set_story_multiplier pricing (Float64.literal 110 2)) /\
  bump_story pricing
    (stories_record [("N", VInt 1); ("S", VStr "two"); ("E", VInt 2)]) =
    Raise TypeError.
Proof.
  split.
  - apply (bump_decided_by_first_side pricing _ [("N", VInt 1)]
             [("S", VStr "two")] "E" (VInt 2));
      [reflexivity | repeat constructor | reflexivity].
  - apply (bump_decided_by_first_side pricing _ [("N", VInt 1)]
             [("E", VInt 2)] "S" (VStr "two"));
      [reflexivity | repeat constructor | reflexivity].
Defined.

(** *** When an estimate is returned *)

Lemma int_mul_float_returns n x :
  (exists y, Py.int_mul_float n x = Ok y) <-> in_double_range n.
Proof.
  unfold Py.int_mul_float, Py.float_of_int, in_double_range.
  destruct (Float64.of_Z n); cbn [bind]; split;
    try (intros _; exact I); try (intros _; eexists; reflexivity);
    try (intros (y & H); discriminate H); contradiction.
Qed.

(** X4: an estimate is returned exactly when extraction returns, every
    story count met by the story test can be compared, the four
    quantities convert, and the downspout count and the total miter count
    are in the range of a double.  The pricing has no part in it: no
    rate, however large, makes the arithmetic raise. *)
Theorem estimate_returns_iff (rd : Py.reader) (p0 : PricingConfig)
    (data : value) :
  (exists r, estimate rd p0 data = Ok r) <->
  (exists t b q,
     extract data = Ok t /\
     any_two_stories t = Ok b /\
     quantities rd t = Ok q /\
     in_double_range (ds q) /\
     in_double_range (miters q)).
Proof.
  split.
  - intros (r & H). unfold estimate in H. bind_inv H.
    apply price_inv in H. destruct H as (p & q & a & ls & Hu & _ & _).
    apply unrounded_inv in Hu. destruct Hu as (Hb & Hq & Ha).
    apply bump_story_inv in Hb. destruct Hb as (b & Hb & _).
    apply amounts_inv in Ha. destruct Ha as (y & z & Hy & Hz & _).
    exists x, b, q. repeat split; try assumption.
    + apply (int_mul_float_returns (ds q) (downspout_each p)).
      eexists; exact Hy.
    + apply (int_mul_float_returns (miters q) (miter_each p)).
      eexists; exact Hz.
  - intros (t & b & q & Ht & Hb & Hq & Hd & Hm).
    unfold estimate, price, unrounded, bump_story.
    rewrite Ht. cbn [bind]. rewrite Hb. cbn [bind]. rewrite Hq. cbn [bind].
    match goal with
    | |- context [amounts ?p ?x ?y ?z] =>
        destruct (amounts_in_range p x y z Hd Hm) as (a & ->); cbn [bind];
        destruct (lines_in_range p x y z a Hd Hm) as (ls & ->); cbn [bind]
    end.
    eexists; reflexivity.
Qed.

(** *** The sales tax of the source's pricing *)

Lemma mul_zero_rate (x : float) :
  Float64.mul x (S754_zero false) = S754_zero false \/
  Float64.mul x (S754_zero false) = S754_zero true \/
  Float64.mul x (S754_zero false) = S754_nan.
Proof.
  destruct x as [ [ | ] | s | | [ | ] m e ]; cbn; auto.
Qed.

(** X5: with the pricing written in the source, whose sales tax rate is
    0.00, the sales tax line of every estimate returned is zero, or NaN
    when the taxed amounts overflow: it is never a non-zero number. *)
Theorem sales_tax_is_zero_or_nan (rd : Py.reader) (data : value)
    (r : EstimateResult) :
  get_results rd data = Ok r ->
  exists x,
    sales_tax_line r = [x] /\
    (x = S754_zero false \/ x = S754_zero true \/ x = S754_nan).
Proof.
  unfold get_results. intros H. apply estimate_sales_tax in H.
  destruct H as (q & y & z & _ & _ & _ & ->).
  eexists. split; [reflexivity | ].
  change (sales_tax_pct pricing) with (S754_zero false).
  destruct (mul_zero_rate
              (Float64.add (Float64.mul (eave_ft q) (price_per_ft pricing))
                 (Float64.add y z)))
    as [-> | [-> | ->]]; cbn; auto.
Qed.

Lemma sales_tax_is_zero_or_nan_witness :
  exists r x,
    get_results Py.no_text scenario = Ok r /\
    sales_tax_line r = [x] /\
    (x = S754_zero false \/ x = S754_zero true \/ x = S754_nan).
Proof.
  destruct (get_results Py.no_text scenario) as [r | e] eqn:E;
    [ | vm_compute in E; discriminate E ].
  destruct (sales_tax_is_zero_or_nan Py.no_text scenario r E) as (x & Hx & H).
  exists r, x. repeat split; assumption.
Defined.

(** *** Inside and outside miters are priced alike *)

(** X6: exchanging the inside and outside miter counts of a record changes
    neither the line items nor the totals of its estimate; when the run
    raises, it raises on the exchanged record too. *)
Theorem price_swap_miters (rd : Py.reader) (p0 : PricingConfig)
    (t : MeasurementRecord) :
  match price rd p0 t, price rd p0 (swap_miters t) with
  | Ok r, Ok r' => line_items r = line_items r' /\ totals r = totals r'
  | Raise _, Raise _ => True
  | _, _ => False
  end.
Proof.
  unfold price, unrounded, bump_story, any_two_stories, quantities.
  cbn [swap_miters stories_by_direction eave_linear_ft downspouts
       miters_inside miters_outside].
  destruct (Py.values (stories_by_direction t)) as [vs | ];
    cbn [bind]; [ | exact I ].
  destruct (Py.any two_stories vs) as [b | ]; cbn [bind]; [ | exact I ].
  destruct (Py.float_ rd (eave_linear_ft t)) as [x | ];
    cbn [bind]; [ | exact I ].
  destruct (Py.int_ rd (downspouts t)) as [n | ]; cbn [bind]; [ | exact I ].
  destruct (Py.int_ rd (miters_inside t)) as [m_in | ],
    (Py.int_ rd (miters_outside t)) as [m_out | ];
    cbn [bind]; try exact I.
  cbn [eave_ft ds miters]. rewrite (Z.add_comm m_out m_in).
  destruct (amounts _ _ _ _) as [a | ]; cbn [bind]; [ | exact I ].
  cbn [eave_ft ds miters].
  destruct (lines _ _ _ _ _) as [ls | ]; cbn [bind]; [ | exact I ].
  split; reflexivity.
Qed.

(** *** What the lines show *)

(** X7: in every estimate returned, the materials and labor lines show
    the eave length rounded to one decimal, in ft, and the downspout and
    miter lines their integer counts, each; the unit prices are the
    configured rates, the labor one without the pitch and story
    multipliers its amount includes; the overhead, profit and sales tax
    lines show no quantity, unit or unit price. *)
Theorem line_items_shown (rd : Py.reader) (p0 : PricingConfig)
    (data : value) (r : EstimateResult) :
  estimate rd p0 data = Ok r ->
  exists q,
    quantities rd (inputs r) = Ok q /\
    map shown (line_items r) =
      [ (Some (VFloat (Float64.round (eave_ft q) 1)), Some "ft"%string,
         Some (price_per_ft p0));
        (Some (VFloat (Float64.round (eave_ft q) 1)), Some "ft"%string,
         Some (labor_per_ft p0));
        (Some (VInt (ds q)), Some "ea"%string, Some (downspout_each p0));
        (Some (VInt (miters q)), Some "ea"%string, Some (miter_each p0));
        (None, None, None); (None, None, None); (None, None, None) ].
Proof.
  unfold estimate. intros H. bind_inv H.
  apply price_inv in H. destruct H as (p & q & a & ls & Hu & Hl & ->).
  apply unrounded_inv in Hu. destruct Hu as (Hb & Hq & _).
  apply bump_story_inv in Hb. destruct Hb as (b & _ & ->).
  exists q. split; [exact Hq | ].
  unfold lines in Hl. bind_inv Hl. bind_inv Hl. ok_inv Hl.
  reflexivity.
Qed.

Lemma line_items_shown_witness :
  exists r,
    get_results Py.no_text scenario = Ok r /\
    map shown (firstn 2 (line_items r)) =
      [ (Some (VFloat (Float64.of_Z 100)), Some "ft"%string, Some (cents 850));
        (Some (VFloat (Float64.of_Z 100)), Some "ft"%string, Some (cents 500)) ].
Proof.
  destruct (get_results Py.no_text scenario) as [r | e] eqn:E;
    [ | vm_compute in E; discriminate E ].
  exists r. split; [reflexivity | ].
  destruct (line_items_shown Py.no_text pricing scenario r E) as (q & Hq & H).
  rewrite <- firstn_map, H.
  vm_compute in E. injection E as <-.
  vm_compute in Hq. injection Hq as <-.
  vm_compute. reflexivity.
Defined.

(** ** Properties of the HTTP handlers *)

Lemma and_then_run {A B : Type} (c : Http.M A) (k : A -> Http.M B)
    (w w1 : Http.World) (o : Http.outcome A) :
  c w = (o, w1) ->
  Http.and_then c k w =
    match o with
    | Http.Return a => k a w1
    | Http.HTTPException s d => (Http.HTTPException s d, w1)
    | Http.Uncaught e => (Http.Uncaught e, w1)
    | Http.Refused x => (Http.Refused x, w1)
    | Http.TransportError => (Http.TransportError, w1)
    end.
Proof. intros H. unfold Http.and_then. rewrite H. reflexivity. Qed.

Lemma and_then_returns {A B : Type} (c : Http.M A) (k : A -> Http.M B)
    (w w' : Http.World) (b : B) :
  Http.and_then c k w = (Http.Return b, w') <->
  exists a w1, c w = (Http.Return a, w1) /\ k a w1 = (Http.Return b, w').
Proof.
  unfold Http.and_then. destruct (c w) as [[a | s d | e | x | ] w1]; split;
    try discriminate;
    try (intros (a' & w2 & H & _); discriminate H).
  - intros H. exists a, w1. split; [reflexivity | exact H].
  - intros (a' & w2 & H & Hk). injection H as <- <-. exact Hk.
Qed.

Lemma and_then_cases {A B : Type} (c : Http.M A) (k : A -> Http.M B)
    (w : Http.World) :
  Http.and_then c k w =
    match fst (c w) with
    | Http.Return a => k a (snd (c w))
    | o => (Http.failed_as o, snd (c w))
    end.
Proof.
  unfold Http.and_then.
  destruct (c w) as [[a | s d | e | x | ] w1]; reflexivity.
Qed.

(** A request: refused with nothing sent, or sent, and then answered or
    lost. *)
Lemma send_run (c : Http.Client) (rq : Http.Request) (w : Http.World) :
  Http.send c rq w =
    match Http.refuses c rq with
    | Some x => (Http.Refused x, w)
    | None =>
        (match Http.wire w with
         | Some r :: _ => Http.Return r
         | _ => Http.TransportError
         end, Http.after_send rq w)
    end.
Proof.
  unfold Http.send, Http.after_send.
  destruct (Http.refuses c rq); [reflexivity | ].
  destruct (Http.wire w) as [ | [r | ] rest ]; reflexivity.
Qed.

Lemma get_token_hit (c : Http.Client) (env : Http.Env) (w : Http.World) :
  Py.truthy (Http.token_cache w) = true ->
  Http.get_token c env w = (Http.Return (Http.token_cache w), w).
Proof.
  intros H. unfold Http.get_token, Http.and_then, Http.read_cache.
  rewrite H. reflexivity.
Qed.

(** What [get_token] does with the answer, case by case. *)
Lemma token_answered_run (r : Http.Response) (w : Http.World) :
  Http.token_answered r w =
    if 400 <=? Http.status_code r
    then (Http.HTTPException (Http.status_code r)
            ("Auth failed: " ++ Http.text r), w)
    else
      match Http.json r with
      | None => (Http.Uncaught ValueError, w)
      | Some body =>
          match Py.get body "access_token" with
          | Ok token => (Http.Return token, Http.with_token token w)
          | Raise e => (Http.Uncaught e, w)
          end
      end.
Proof.
  unfold Http.token_answered.
  destruct (400 <=? Http.status_code r); [reflexivity | ].
  unfold Http.and_then at 1, Http.json_of.
  destruct (Http.json r) as [body | ]; [ | reflexivity ].
  cbn [Http.ret]. unfold Http.and_then at 1, Http.lift.
  destruct (Py.get body "access_token") as [token | e]; reflexivity.
Qed.

(** A run of [get_token] on an empty cache, case by case. *)
Lemma get_token_miss (c : Http.Client) (env : Http.Env) (w : Http.World) :
  Py.truthy (Http.token_cache w) = false ->
  Http.get_token c env w =
    match Http.credentials env with
    | None => (Http.HTTPException 500 "EagleView credentials not set", w)
    | Some (id, secret) =>
        match Http.refuses c (Http.token_request env id secret) with
        | Some x => (Http.Refused x, w)
        | None =>
            let w1 := Http.after_send (Http.token_request env id secret) w in
            match Http.wire w with
            | Some r :: _ => Http.token_answered r w1
            | _ => (Http.TransportError, w1)
            end
        end
    end.
Proof.
  intros H. unfold Http.get_token. unfold Http.and_then at 1.
  unfold Http.read_cache at 1. rewrite H.
  destruct (Http.credentials env) as [[id secret] | ]; [ | reflexivity ].
  unfold Http.and_then at 1. rewrite send_run.
  destruct (Http.refuses c (Http.token_request env id secret));
    [reflexivity | ].
  destruct (Http.wire w) as [ | [r | ] rest ]; reflexivity.
Qed.

Lemma token_answered_cache (r : Http.Response) (w : Http.World) :
  match Http.token_answered r w with
  | (Http.Return t, w') => w' = Http.with_token t w
  | (_, w') => w' = w
  end.
Proof.
  rewrite token_answered_run.
  destruct (400 <=? Http.status_code r); [reflexivity | ].
  destruct (Http.json r) as [body | ]; [ | reflexivity ].
  destruct (Py.get body "access_token"); reflexivity.
Qed.

Lemma passed_on_world (r : Http.Response) (w : Http.World) :
  snd (Http.passed_on r w) = w.
Proof.
  unfold Http.passed_on, Http.http_exception, Http.json_of, Http.ret.
  destruct (400 <=? Http.status_code r); [reflexivity | ].
  destruct (Http.json r); reflexivity.
Qed.

Lemma passed_on_returns (r : Http.Response) (w w' : Http.World) (v : value) :
  Http.passed_on r w = (Http.Return v, w') <->
  Http.status_code r < 400 /\ Http.json r = Some v /\ w' = w.
Proof.
  unfold Http.passed_on, Http.http_exception, Http.json_of, Http.ret.
  destruct (400 <=? Http.status_code r) eqn:E.
  - apply Z.leb_le in E. split; [discriminate | intros (H & _); lia].
  - apply Z.leb_gt in E. destruct (Http.json r) as [j | ].
    + split.
      * intros H. injection H as -> ->. auto.
      * intros (_ & H & ->). injection H as ->. reflexivity.
    + split; [discriminate | intros (_ & H & _); discriminate H].
Qed.

Lemma results_answered_world (rd : Py.reader) (r : Http.Response)
    (w : Http.World) :
  snd (Http.results_answered rd r w) = w.
Proof.
  unfold Http.results_answered.
  destruct (Http.status_code r =? 404); [reflexivity | ].
  destruct (400 <=? Http.status_code r); [reflexivity | ].
  unfold Http.and_then, Http.json_of, Http.lift, Http.ret.
  destruct (Http.json r) as [data | ]; [ | reflexivity ].
  destruct (estimate rd pricing data); reflexivity.
Qed.

Lemma results_answered_returns (rd : Py.reader) (r : Http.Response)
    (w w' : Http.World) (e : EstimateResult) :
  Http.results_answered rd r w = (Http.Return e, w') <->
  Http.status_code r < 400 /\
  (exists data, Http.json r = Some data /\ get_results rd data = Ok e) /\
  w' = w.
Proof.
  unfold Http.results_answered, get_results.
  destruct (Http.status_code r =? 404) eqn:E404.
  { apply Z.eqb_eq in E404.
    split; [discriminate | intros (H & _); lia]. }
  destruct (400 <=? Http.status_code r) eqn:E4.
  { apply Z.leb_le in E4. split; [discriminate | intros (H & _); lia]. }
  apply Z.leb_gt in E4.
  unfold Http.and_then, Http.json_of, Http.lift, Http.ret.
  destruct (Http.json r) as [data | ].
  - destruct (estimate rd pricing data) as [e0 | x] eqn:Ee; split.
    + intros H. injection H as <- <-.
      split; [exact E4 | ]. split; [ | reflexivity ].
      exists data. split; [reflexivity | exact Ee].
    + intros (_ & (data' & Hd & He) & ->). injection Hd as <-.
      rewrite Ee in He. injection He as <-. reflexivity.
    + discriminate.
    + intros (_ & (data' & Hd & He) & _). injection Hd as <-.
      rewrite Ee in He. discriminate He.
  - split; [discriminate | ].
    intros (_ & (data' & Hd & _) & _). discriminate Hd.
Qed.

(** The tail of the three handlers: one request, whose answer decides. *)
Lemma request_sends_only {A : Type} (c : Http.Client) (rq : Http.Request)
    (k : Http.Response -> Http.M A) (w : Http.World) :
  (forall r w1, snd (k r w1) = w1) ->
  Http.sends_only c rq w (Http.and_then (Http.send c rq) k w).
Proof.
  intros Hk. unfold Http.sends_only, Http.and_then. rewrite send_run.
  destruct (Http.refuses c rq); [reflexivity | ].
  destruct (Http.wire w) as [ | [r | ] rest ]; try reflexivity.
  apply Hk.
Qed.

Lemma request_returns {A : Type} (c : Http.Client) (rq : Http.Request)
    (k : Http.Response -> Http.M A) (w w' : Http.World) (a : A) :
  Http.and_then (Http.send c rq) k w = (Http.Return a, w') <->
  Http.refuses c rq = None /\
  exists r, hd_error (Http.wire w) = Some (Some r) /\
            k r (Http.after_send rq w) = (Http.Return a, w').
Proof.
  rewrite and_then_returns. setoid_rewrite send_run.
  destruct (Http.refuses c rq) as [x | ].
  { split; [intros (r & w1 & H & _); discriminate H
           | intros (H & _); discriminate H]. }
  split.
  - intros (r & w1 & H & Hk). injection H as Hr <-.
    split; [reflexivity | ].
    destruct (Http.wire w) as [ | [r0 | ] rest ]; try discriminate Hr.
    injection Hr as ->. exists r. split; [reflexivity | exact Hk].
  - intros (_ & r & Hw & Hk). exists r, (Http.after_send rq w).
    destruct (Http.wire w) as [ | [r0 | ] rest ]; try discriminate Hw.
    injection Hw as ->. split; [reflexivity | exact Hk].
Qed.

(** *** The token cache *)

(** X8: [get_token] leaves in the cache exactly the token it returns and
    leaves the cache as it was when it fails; on a cached token it
    changes nothing and sends nothing, whatever the credentials; else it
    sends at most the one token request. *)
Theorem get_token_cache (c : Http.Client) (env : Http.Env) (w : Http.World) :
  let '(o, w') := Http.get_token c env w in
  match o with
  | Http.Return t => Http.token_cache w' = t
  | _ => Http.token_cache w' = Http.token_cache w
  end /\
  (Py.truthy (Http.token_cache w) = true ->
   o = Http.Return (Http.token_cache w) /\ w' = w) /\
  (Http.sent w' = Http.sent w \/
   exists id secret,
     Http.credentials env = Some (id, secret) /\
     Http.sent w' = (Http.sent w ++ [Http.token_request env id secret])%list).
Proof.
  destruct (Py.truthy (Http.token_cache w)) eqn:Et.
  - rewrite get_token_hit by exact Et. repeat split; auto.
  - rewrite get_token_miss by exact Et.
    destruct (Http.credentials env) as [[id secret] | ] eqn:Ec;
      [ | repeat split; auto; discriminate ].
    destruct (Http.refuses c (Http.token_request env id secret));
      [repeat split; auto; discriminate | ].
    cbv zeta.
    set (w1 := Http.after_send (Http.token_request env id secret) w).
    assert (Hs : forall w' : Http.World,
               Http.sent w' = Http.sent w1 ->
               Http.sent w' = Http.sent w \/
               exists id0 secret0,
                 Some (id, secret) = Some (id0, secret0) /\
                 Http.sent w' =
                   (Http.sent w ++ [Http.token_request env id0 secret0])%list).
    { intros w' ->. right. exists id, secret. split; reflexivity. }
    destruct (Http.wire w) as [ | [r | ] rest ];
      try (repeat split; auto; try discriminate; apply Hs; reflexivity).
    pose proof (token_answered_cache r w1) as Hr.
    destruct (Http.token_answered r w1) as [[t | s d | e | x | ] w'];
      subst w'; repeat split; auto; try discriminate;
      apply Hs; reflexivity.
Qed.

(** X9: a token returned is kept until a call overwrites it.  After
    [get_token] has returned a truthy token, a call that starts in any
    later world whose cache still holds that token returns it and sends
    nothing, whatever the client and the credentials then are.  But the
    cache is tested before the [await] of line 38 only: the part of a
    call that runs after it (lines 43-46), in whatever world the call
    finds when it is answered, writes the token of its own answer over
    the cache.  So of two calls in flight together the last one answered
    decides the cache, and the service may authenticate more than
    once. *)
Theorem token_kept_until_overwritten (c c' : Http.Client)
    (env env' : Http.Env) (w w' later : Http.World) (token : value) :
  Http.get_token c env w = (Http.Return token, w') ->
  Py.truthy token = true ->
  Http.token_cache w' = token /\
  (Http.token_cache later = token ->
   Http.get_token c' env' later = (Http.Return token, later)) /\
  (forall r d,
     Http.status_code r < 400 ->
     Http.json r = Some (VDict d) ->
     Http.token_answered r later =
       (Http.Return (entry d "access_token"),
        Http.with_token (entry d "access_token") later)).
Proof.
  intros H Ht.
  assert (Hc : Http.token_cache w' = token).
  { pose proof (get_token_cache c env w) as Hx. rewrite H in Hx.
    apply Hx. }
  split; [exact Hc | ]. split.
  - intros Hl. rewrite <- Hl in Ht. rewrite get_token_hit by exact Ht.
    rewrite Hl. reflexivity.
  - intros r d Hs Hj. rewrite token_answered_run.
    apply Z.leb_gt in Hs. rewrite Hs, Hj. reflexivity.
Qed.

Lemma token_kept_until_overwritten_witness :
  exists w',
    Http.get_token demo_client demo_env demo_world =
      (Http.Return (VStr "tok"), w') /\
    Http.get_token demo_client no_credentials_env w' =
      (Http.Return (VStr "tok"), w') /\
    Http.token_cache
      (snd (Http.token_answered
              {| Http.status_code := 200; Http.text := "";
                 Http.json := Some (VDict [("access_token", VStr "new")]) |}
              w')) = VStr "new".
Proof.
  exists (Http.with_token (VStr "tok")
            (Http.after_send
               (Http.token_request demo_env "id" "secret") demo_world)).
  split; [reflexivity | ].
  destruct (token_kept_until_overwritten demo_client demo_client demo_env
              no_credentials_env demo_world _
              (Http.with_token (VStr "tok")
                 (Http.after_send
                    (Http.token_request demo_env "id" "secret") demo_world))
              (VStr "tok") eq_refl eq_refl) as (_ & Hkept & Hover).
  split; [apply Hkept; reflexivity | ].
  rewrite (Hover {| Http.status_code := 200; Http.text := "";
                    Http.json := Some (VDict [("access_token", VStr "new")]) |}
             [("access_token", VStr "new")] eq_refl eq_refl).
  reflexivity.
Defined.

(** X10: an answer to the token request that is a success but holds no
    [access_token] (or a null or empty one) is no error: [get_token]
    returns that falsy value, the handler goes on and, if the client
    accepts it, sends its request with that value as the bearer token,
    and the cache stays empty, so that the next call authenticates
    again. *)
Theorem absent_token_is_used (c : Http.Client) (env : Http.Env)
    (w : Http.World) (id secret order_id : string) (r : Http.Response)
    (rest : list (option Http.Response)) (d : list (string * value)) :
  Py.truthy (Http.token_cache w) = false ->
  Http.credentials env = Some (id, secret) ->
  Http.refuses c (Http.token_request env id secret) = None ->
  Http.wire w = Some r :: rest ->
  Http.status_code r < 400 ->
  Http.json r = Some (VDict d) ->
  Py.truthy (entry d "access_token") = false ->
  let token := entry d "access_token" in
  let w1 := Http.with_token token
              (Http.after_send (Http.token_request env id secret) w) in
  Http.get_token c env w = (Http.Return token, w1) /\
  Py.truthy (Http.token_cache w1) = false /\
  Http.sends_only c (Http.status_request env token order_id) w1
    (Http.get_order c env order_id w).
Proof.
  intros Hc Hcred Hacc Hw Hs Hj Ht token w1.
  assert (Hrun : Http.get_token c env w = (Http.Return token, w1)).
  { rewrite get_token_miss by exact Hc. rewrite Hcred, Hacc, Hw. cbv zeta.
    rewrite token_answered_run.
    apply Z.leb_gt in Hs. rewrite Hs, Hj. reflexivity. }
  split; [exact Hrun | ]. split; [exact Ht | ].
  unfold Http.get_order. rewrite (and_then_run _ _ _ _ _ Hrun).
  apply request_sends_only, passed_on_world.
Qed.

Lemma absent_token_is_used_witness :
  fst (Http.get_token demo_client demo_env tokenless_world) =
    Http.Return VNone /\
  Http.sent (snd (Http.get_order demo_client demo_env "42" tokenless_world)) =
    [Http.token_request demo_env "id" "secret";
     Http.status_request demo_env VNone "42"] /\
  Http.get_order demo_client demo_env tab_id tokenless_world =
    (Http.Refused Http.InvalidURL,
     {| Http.token_cache := VNone;
        Http.wire := [answer 401 VNone];
        Http.sent := [Http.token_request demo_env "id" "secret"] |}).
Proof.
  split; [ | split ].
  - destruct (absent_token_is_used demo_client demo_env tokenless_world
                "id" "secret" "42"
                {| Http.status_code := 200; Http.text := "";
                   Http.json := Some (VDict [("error", VStr "none")]) |}
                [answer 401 VNone] [("error", VStr "none")]
                eq_refl eq_refl eq_refl eq_refl ltac:(reflexivity)
                eq_refl eq_refl) as (H & _).
    rewrite H. reflexivity.
  - destruct (absent_token_is_used demo_client demo_env tokenless_world
                "id" "secret" "42"
                {| Http.status_code := 200; Http.text := "";
                   Http.json := Some (VDict [("error", VStr "none")]) |}
                [answer 401 VNone] [("error", VStr "none")]
                eq_refl eq_refl eq_refl eq_refl ltac:(reflexivity)
                eq_refl eq_refl) as (_ & _ & H).
    hnf in H. rewrite H. reflexivity.
  - destruct (absent_token_is_used demo_client demo_env tokenless_world
                "id" "secret" tab_id
                {| Http.status_code := 200; Http.text := "";
                   Http.json := Some (VDict [("error", VStr "none")]) |}
                [answer 401 VNone] [("error", VStr "none")]
                eq_refl eq_refl eq_refl eq_refl ltac:(reflexivity)
                eq_refl eq_refl) as (_ & _ & H).
    exact H.
Defined.

(** X11: with no token in the cache and a client id or secret that is not
    set, or set to the empty text, [get_token] and the three handlers
    fail with status 500 before anything is sent: the world is
    untouched. *)
Theorem no_credentials_nothing_sent (rd : Py.reader) (c : Http.Client)
    (env : Http.Env) (w : Http.World) (reference order_id : string)
    (body : Http.GutterOrder) :
  Py.truthy (Http.token_cache w) = false ->
  Http.credentials env = None ->
  Http.get_token c env w =
    (Http.HTTPException 500 "EagleView credentials not set", w) /\
  Http.create_order c env reference body w =
    (Http.HTTPException 500 "EagleView credentials not set", w) /\
  Http.get_order c env order_id w =
    (Http.HTTPException 500 "EagleView credentials not set", w) /\
  Http.get_results rd c env order_id w =
    (Http.HTTPException 500 "EagleView credentials not set", w).
Proof.
  intros Hc Hcred.
  assert (H : Http.get_token c env w =
              (Http.HTTPException 500 "EagleView credentials not set", w)).
  { rewrite get_token_miss by exact Hc. rewrite Hcred. reflexivity. }
  unfold Http.create_order, Http.get_order, Http.get_results.
  rewrite !(and_then_run _ _ _ _ _ H). repeat split; exact H.
Qed.

Lemma no_credentials_nothing_sent_witness :
  Http.credentials no_credentials_env = None /\
  Http.get_results Py.no_text demo_client no_credentials_env "42" demo_world =
    (Http.HTTPException 500 "EagleView credentials not set", demo_world).
Proof.
  split; [reflexivity | ].
  apply (no_credentials_nothing_sent Py.no_text demo_client
           no_credentials_env demo_world "ref" "42" demo_order);
    reflexivity.
Defined.

(** X12: with a truthy token in the cache, each handler sends at most
    one request, its own, with the cached token as the bearer.  When the
    client accepts the request, it is sent, one answer is consumed and
    the cache is left as it is, whatever the answer and whatever the
    credentials; when the client refuses it (a URL it cannot parse, a
    body it cannot encode), nothing is sent and the handler ends with
    the client's exception in the world as it was. *)
Theorem cached_token_one_request (rd : Py.reader) (c : Http.Client)
    (env : Http.Env) (w : Http.World) (reference order_id : string)
    (body : Http.GutterOrder) :
  Py.truthy (Http.token_cache w) = true ->
  let token := Http.token_cache w in
  Http.sends_only c (Http.order_request env token reference body) w
    (Http.create_order c env reference body w) /\
  Http.sends_only c (Http.status_request env token order_id) w
    (Http.get_order c env order_id w) /\
  Http.sends_only c (Http.results_request env token order_id) w
    (Http.get_results rd c env order_id w).
Proof.
  intros Hc token. pose proof (get_token_hit c env w Hc) as H.
  unfold Http.create_order, Http.get_order, Http.get_results.
  rewrite !(and_then_run _ _ _ _ _ H).
  repeat split; apply request_sends_only;
    try apply passed_on_world; apply results_answered_world.
Qed.

Lemma cached_token_one_request_witness :
  Http.sent
    (snd (Http.get_results Py.no_text demo_client no_credentials_env "42"
            (Http.with_token (VStr "tok") demo_world))) =
    [Http.results_request no_credentials_env (VStr "tok") "42"] /\
  Http.get_order demo_client no_credentials_env tab_id
    (Http.with_token (VStr "tok") demo_world) =
    (Http.Refused Http.InvalidURL, Http.with_token (VStr "tok") demo_world).
Proof.
  split.
  - destruct (cached_token_one_request Py.no_text demo_client
                no_credentials_env
                (Http.with_token (VStr "tok") demo_world) "ref" "42"
                demo_order eq_refl) as (_ & _ & H).
    hnf in H. rewrite H. reflexivity.
  - destruct (cached_token_one_request Py.no_text demo_client
                no_credentials_env
                (Http.with_token (VStr "tok") demo_world) "ref" tab_id
                demo_order eq_refl) as (_ & H & _).
    exact H.
Defined.

(** *** What the handlers reply *)

(** X13: the handler [get_results] returns an estimate exactly when a
    token is obtained, the client accepts the results request, the
    provider answers it with a status below 400 and a JSON body, and the
    estimator returns on that body; the estimate is then the
    estimator's, and the only trace left is the request sent.  An answer
    404, or 400 and above, never reaches the estimator. *)
Theorem results_returned_iff (rd : Py.reader) (c : Http.Client)
    (env : Http.Env) (order_id : string) (w w' : Http.World)
    (e : EstimateResult) :
  Http.get_results rd c env order_id w = (Http.Return e, w') <->
  exists token w1 r data,
    Http.get_token c env w = (Http.Return token, w1) /\
    Http.refuses c (Http.results_request env token order_id) = None /\
    hd_error (Http.wire w1) = Some (Some r) /\
    Http.status_code r < 400 /\
    Http.json r = Some data /\
    get_results rd data = Ok e /\
    w' = Http.after_send (Http.results_request env token order_id) w1.
Proof.
  unfold Http.get_results. rewrite and_then_returns.
  split.
  - intros (token & w1 & Ht & H). apply request_returns in H.
    destruct H as (Hacc & r & Hw & H).
    apply results_answered_returns in H.
    destruct H as (Hs & (data & Hj & He) & ->).
    exists token, w1, r, data. repeat split; assumption.
  - intros (token & w1 & r & data & Ht & Hacc & Hw & Hs & Hj & He & ->).
    exists token, w1. split; [exact Ht | ].
    apply request_returns. split; [exact Hacc | ].
    exists r. split; [exact Hw | ].
    apply results_answered_returns.
    split; [exact Hs | ]. split; [ | reflexivity ].
    exists data. split; assumption.
Qed.

(** X14: [create_order] and [get_order] return exactly what the provider
    answers: they return a value only when a token is obtained, the
    client accepts the request, and the answer has a status below 400
    and a JSON body; the value is then that body, unchanged. *)
Theorem provider_answer_passed_on (c : Http.Client) (env : Http.Env)
    (reference order_id : string) (body : Http.GutterOrder)
    (w w' : Http.World) (v : value) :
  (Http.create_order c env reference body w = (Http.Return v, w') <->
   exists token w1 r,
     Http.get_token c env w = (Http.Return token, w1) /\
     Http.refuses c (Http.order_request env token reference body) = None /\
     hd_error (Http.wire w1) = Some (Some r) /\
     Http.status_code r < 400 /\
     Http.json r = Some v /\
     w' = Http.after_send (Http.order_request env token reference body) w1) /\
  (Http.get_order c env order_id w = (Http.Return v, w') <->
   exists token w1 r,
     Http.get_token c env w = (Http.Return token, w1) /\
     Http.refuses c (Http.status_request env token order_id) = None /\
     hd_error (Http.wire w1) = Some (Some r) /\
     Http.status_code r < 400 /\
     Http.json r = Some v /\
     w' = Http.after_send (Http.status_request env token order_id) w1).
Proof.
  unfold Http.create_order, Http.get_order.
  split; rewrite and_then_returns; split.
  - intros (token & w1 & Ht & H). apply request_returns in H.
    destruct H as (Hacc & r & Hw & H). apply passed_on_returns in H.
    destruct H as (Hs & Hj & ->). exists token, w1, r. auto 6.
  - intros (token & w1 & r & Ht & Hacc & Hw & Hs & Hj & ->).
    exists token, w1. split; [exact Ht | ].
    apply request_returns. split; [exact Hacc | ].
    exists r. split; [exact Hw | ].
    apply passed_on_returns. auto.
  - intros (token & w1 & Ht & H). apply request_returns in H.
    destruct H as (Hacc & r & Hw & H). apply passed_on_returns in H.
    destruct H as (Hs & Hj & ->). exists token, w1, r. auto 6.
  - intros (token & w1 & r & Ht & Hacc & Hw & Hs & Hj & ->).
    exists token, w1. split; [exact Ht | ].
    apply request_returns. split; [exact Hacc | ].
    exists r. split; [exact Hw | ].
    apply passed_on_returns. auto.
Qed.

Lemma token_answered_error_status (r : Http.Response) (w : Http.World) :
  Http.error_status (fst (Http.token_answered r w)).
Proof.
  rewrite token_answered_run.
  destruct (400 <=? Http.status_code r) eqn:E4.
  - apply Z.leb_le in E4. exact E4.
  - destruct (Http.json r) as [body | ]; [ | exact I ].
    destruct (Py.get body "access_token"); exact I.
Qed.

Lemma get_token_error_status (c : Http.Client) (env : Http.Env)
    (w : Http.World) :
  Http.error_status (fst (Http.get_token c env w)).
Proof.
  destruct (Py.truthy (Http.token_cache w)) eqn:E.
  - rewrite get_token_hit by exact E. exact I.
  - rewrite get_token_miss by exact E.
    destruct (Http.credentials env) as [[id secret] | ]; [ | cbn; lia ].
    destruct (Http.refuses c (Http.token_request env id secret));
      [exact I | ].
    cbv zeta. destruct (Http.wire w) as [ | [r | ] rest ]; try exact I.
    apply token_answered_error_status.
Qed.

Lemma request_error_status {A : Type} (c : Http.Client) (rq : Http.Request)
    (k : Http.Response -> Http.M A) (w : Http.World) :
  (forall r w1, Http.error_status (fst (k r w1))) ->
  Http.error_status (fst (Http.and_then (Http.send c rq) k w)).
Proof.
  intros Hk. unfold Http.and_then. rewrite send_run.
  destruct (Http.refuses c rq); [exact I | ].
  destruct (Http.wire w) as [ | [r | ] rest ]; try exact I.
  apply Hk.
Qed.

Lemma after_token_error_status {A : Type} (c : Http.Client) (env : Http.Env)
    (k : value -> Http.M A) (w : Http.World) :
  (forall token w1, Http.error_status (fst (k token w1))) ->
  Http.error_status (fst (Http.and_then (Http.get_token c env) k w)).
Proof.
  intros Hk. pose proof (get_token_error_status c env w) as Ht.
  unfold Http.and_then.
  destruct (Http.get_token c env w) as [[token | s d | e | x | ] w1];
    try exact Ht; try exact I.
  apply Hk.
Qed.

Lemma passed_on_error_status (r : Http.Response) (w : Http.World) :
  Http.error_status (fst (Http.passed_on r w)).
Proof.
  unfold Http.passed_on, Http.http_exception, Http.json_of, Http.ret.
  destruct (400 <=? Http.status_code r) eqn:E4.
  - apply Z.leb_le in E4. exact E4.
  - destruct (Http.json r); exact I.
Qed.

(** X15: whenever [get_token] or a handler ends with an [HTTPException],
    its status is an error status, 400 or above: 500 for the missing
    credentials, 404 for results not ready, the provider's own status
    otherwise, which is passed on only when it is 400 or above. *)
Theorem http_exception_is_error (rd : Py.reader) (c : Http.Client)
    (env : Http.Env) (w : Http.World) (reference order_id : string)
    (body : Http.GutterOrder) :
  Http.error_status (fst (Http.get_token c env w)) /\
  Http.error_status (fst (Http.create_order c env reference body w)) /\
  Http.error_status (fst (Http.get_order c env order_id w)) /\
  Http.error_status (fst (Http.get_results rd c env order_id w)).
Proof.
  split; [apply get_token_error_status | ].
  unfold Http.create_order, Http.get_order, Http.get_results.
  repeat split; apply after_token_error_status; intros token w1;
    apply request_error_status; intros r w2;
    try apply passed_on_error_status.
  unfold Http.results_answered.
  destruct (Http.status_code r =? 404); [cbn; lia | ].
  destruct (400 <=? Http.status_code r) eqn:E4.
  - apply Z.leb_le in E4. exact E4.
  - unfold Http.and_then, Http.json_of, Http.lift, Http.ret.
    destruct (Http.json r) as [data | ]; [ | exact I ].
    destruct (estimate rd pricing data); exact I.
Qed.

(** X16: when [get_token] does not return a token, each handler ends the
    way [get_token] ended and in the world it left: the request of the
    handler is never sent without a token obtained. *)
Theorem no_token_no_request (rd : Py.reader) (c : Http.Client)
    (env : Http.Env) (w : Http.World) (reference order_id : string)
    (body : Http.GutterOrder) :
  Http.returned (fst (Http.get_token c env w)) = false ->
  Http.create_order c env reference body w = Http.get_token c env w /\
  Http.get_order c env order_id w = Http.get_token c env w /\
  Http.get_results rd c env order_id w =
    (Http.failed_as (fst (Http.get_token c env w)),
     snd (Http.get_token c env w)).
Proof.
  intros H. unfold Http.create_order, Http.get_order, Http.get_results.
  rewrite !and_then_cases.
  destruct (Http.get_token c env w) as [[token | s d | e | x | ] w1];
    cbn [fst snd Http.returned Http.failed_as] in *;
    try discriminate H; repeat split.
Qed.

Lemma no_token_no_request_witness :
  Http.get_order demo_client demo_env "42"
    {| Http.token_cache := VNone;
       Http.wire := [answer 401 VNone; answer 200 scenario];
       Http.sent := [] |} =
    (Http.HTTPException 401 "Auth failed: ",
     {| Http.token_cache := VNone;
        Http.wire := [answer 200 scenario];
        Http.sent := [Http.token_request demo_env "id" "secret"] |}).
Proof.
  destruct (no_token_no_request Py.no_text demo_client demo_env
              {| Http.token_cache := VNone;
                 Http.wire := [answer 401 VNone; answer 200 scenario];
                 Http.sent := [] |} "ref" "42" demo_order eq_refl)
    as (_ & H & _).
  rewrite H. reflexivity.
Defined.

(** *** The multiplier 1.00 *)

Lemma digits_shifted_52 (m : positive) :
  Zpos (digits2_pos (Pos.mul 4503599627370496 m)) = Float64.digits m + 52.
Proof.
  unfold Float64.digits. cbn [Pos.mul digits2_pos].
  rewrite !Pos2Z.inj_succ. lia.
Qed.

(** Multiplying a double by [1.00] gives it back, bit for bit: the
    product [m * 2^52] at exponent [e - 52] is shifted back by 52 places
    with nothing lost. *)
Lemma mul_one (x : float) :
  valid x -> Float64.mul x (Float64.literal 100 2) = x.
Proof.
  assert (H1 : Float64.literal 100 2 = S754_finite false 4503599627370496 (-52))
    by (vm_compute; reflexivity).
  rewrite H1. unfold valid, Float64.mul.
  destruct x as [s | s | | s m e]; cbn [valid_binary SFmul]; intros Hv;
    rewrite ?xorb_false_r; try reflexivity.
  rewrite Pos.mul_comm.
  apply Float64Facts.bounded_inv in Hv. destruct Hv as [Hc He].
  unfold binary_round_aux, shr_fexp. cbn [Zdigits2].
  rewrite digits_shifted_52.
  replace (Float64.digits m + 52 + (e + -52)) with (Float64.digits m + e)
    by lia.
  change (fexp Float64.prec Float64.emax (Float64.digits m + e))
    with (Float64.fexp64 (Float64.digits m + e)).
  rewrite <- Hc.
  replace (e - (e + -52)) with 52 by lia.
  cbv [shr shr_record_of_loc Pos.mul iter_pos shr_1 orb shr_m
       loc_of_shr_record round_nearest_even Zdigits2].
  replace (e + -52 + 52) with e by lia.
  fold (Float64.digits m).
  change (fexp Float64.prec Float64.emax (Float64.digits m + e))
    with (Float64.fexp64 (Float64.digits m + e)).
  rewrite <- Hc, Z.sub_diag.
  change (Float64.emax - Float64.prec) with 971.
  apply Z.leb_le in He. rewrite He. reflexivity.
Qed.

Lemma mul_valid (x y : float) : valid x -> valid y -> valid (Float64.mul x y).
Proof.
  unfold valid, Float64.mul.
  destruct x as [sx | sx | | sx mx ex], y as [sy | sy | | sy my ey];
    cbn [valid_binary SFmul]; intros Hx Hy; try reflexivity.
  pose proof (Float64Facts.binary_round_aux_spec (xorb sx sy) (mx * my)
                (ex + ey) (Float64Facts.mul_exponent mx ex my ey Hx Hy)) as H.
  destruct (binary_round_aux Float64.prec Float64.emax (xorb sx sy)
              (Z.pos (mx * my)) (ex + ey) loc_Exact) as [s | s | | s m e];
    cbn [valid_binary]; try reflexivity.
  apply H.
Qed.

(** X17: when no side has two stories or more, the pricing stays the
    configured one and the labor amount is exactly the eave length times
    the labor rate times the pitch multiplier: the story multiplier 1.00
    of the source changes no bit of it, whatever double the eave length
    is (an infinity and NaN included). *)
Theorem single_story_labor (rd : Py.reader) (t : MeasurementRecord)
    (pe : PricingConfig) (q : Quantities) (a : Amounts) :
  any_two_stories t = Ok false ->
  valid (eave_ft q) ->
  unrounded rd pricing t = Ok (pe, q, a) ->
  pe = pricing /\
  base_lab a =
    Float64.mul (Float64.mul (eave_ft q) (labor_per_ft pricing))
      (pitch_multiplier pricing).
Proof.
  intros Hs Hv Hu. apply unrounded_inv in Hu. destruct Hu as (Hb & _ & Ha).
  unfold bump_story in Hb. rewrite Hs in Hb. cbn [bind] in Hb.
  injection Hb as <-. split; [reflexivity | ].
  apply amounts_inv in Ha.
  destruct Ha as (ds_amt & miters_amt & _ & _ & _ & Hlab & _).
  rewrite Hlab. apply mul_one.
  apply mul_valid; [apply mul_valid | ]; try exact Hv; vm_compute; reflexivity.
Qed.

Lemma single_story_labor_witness :
  exists q a,
    unrounded Py.no_text pricing
      (stories_record [("N", VInt 1); ("S", VNone)]) = Ok (pricing, q, a) /\
    base_lab a =
      Float64.mul (Float64.mul (eave_ft q) (labor_per_ft pricing))
        (pitch_multiplier pricing).
Proof.
  destruct (unrounded Py.no_text pricing
              (stories_record [("N", VInt 1); ("S", VNone)]))
    as [[[pe q] a] | e] eqn:E; [ | vm_compute in E; discriminate E ].
  destruct (single_story_labor Py.no_text
              (stories_record [("N", VInt 1); ("S", VNone)]) pe q a eq_refl)
    as [-> H]; [ | exact E | ].
  - vm_compute in E. injection E as _ <- _. reflexivity.
  - exists q, a. split; [reflexivity | exact H].
Defined.

(** *** Keys that are not read *)

Lemma or_empty_dict_Some v d :
  or_empty_dict v = Some d -> Py.or_ v empty_dict = VDict d.
Proof.
  intros H. pose proof (or_empty_dict_spec v) as Hs.
  rewrite H in Hs. exact Hs.
Qed.

(** X18: the estimate depends on the payload only through the five
    entries of [gutterReport] that are read: two payloads whose reports
    agree on them get the same result, the same exception included,
    whatever else the payloads or the reports hold. *)
Theorem unread_keys_ignored (rd : Py.reader) (d d' g g' : list (string * value)) :
  or_empty_dict (entry d "gutterReport") = Some g ->
  or_empty_dict (entry d' "gutterReport") = Some g' ->
  (forall k, In k read_keys -> entry g k = entry g' k) ->
  get_results rd (VDict d) = get_results rd (VDict d').
Proof.
  intros Hg Hg' Hk.
  apply or_empty_dict_Some in Hg, Hg'.
  assert (He : extract (VDict d) = extract (VDict d')).
  { unfold extract. rewrite !gutter_spec, Hg, Hg'. cbn [bind].
    rewrite !get_entry. cbn [bind].
    rewrite !Hk by (cbn; tauto). reflexivity. }
  unfold get_results, estimate. rewrite He. reflexivity.
Qed.

Lemma unread_keys_ignored_witness :
  get_results Py.no_text
    (VDict [("status", VStr "done");
            ("gutterReport",
             VDict [("reportId", VInt 7); ("totalEaveLengthFt", VInt 100)])]) =
  get_results Py.no_text (report [("totalEaveLengthFt", VInt 100)]).
Proof.
  apply (unread_keys_ignored Py.no_text _ _
           [("reportId", VInt 7); ("totalEaveLengthFt", VInt 100)]
           [("totalEaveLengthFt", VInt 100)]);
    [reflexivity | reflexivity | ].
  intros k Hk. cbn in Hk.
  repeat (destruct Hk as [<- | Hk]; [reflexivity | ]).
  destruct Hk.
Defined.
